(** * clean-env: configuration discovery and environment policy check

    A shallow embedding of [lib/config-file.js] (locating, loading and
    merging the project configuration) and of [bin/clean-env.js] (the
    check of the environment against the configuration and the interactive
    confirmation), with the properties the specification states about them.

    JavaScript values are a first-order datatype, exceptions are an error
    monad, the file system and the third-party parsers are parameters. *)

From Stdlib Require Import ZArith Ascii.
From stdpp Require Import base strings list gmap pretty.

#[local] Set Warnings "-register-all".

(** ** JavaScript values *)

(** Plain data as JSON, YAML and a configuration script produce it.
    An object is a finite map from its keys to their values; numbers are
    restricted to integers. *)
Inductive JSValue : Type :=
| JUndefined
| JNull
| JBool (b : bool)
| JNum (n : Z)
| JStr (s : string)
| JArr (items : list JSValue)
| JObj (fields : gmap string JSValue).

(** [!v]: the values that are falsy. *)
Definition truthy (v : JSValue) : bool :=
  match v with
  | JUndefined | JNull => false
  | JBool b => b
  | JNum n => negb (n =? 0)%Z
  | JStr s => negb (bool_decide (s = ""))
  | JArr _ | JObj _ => true
  end.

(** [v == null] *)
Definition nullish (v : JSValue) : bool :=
  match v with
  | JUndefined | JNull => true
  | _ => false
  end.

(** [a || b] *)
Definition js_or (a b : JSValue) : JSValue := if truthy a then a else b.

(** ** Exceptions *)

(** An [Error] instance: the message, the [code] of a system error, and
    the two properties [loadJSONConfigFile] attaches. *)
Record JSError : Type := mkError {
  message : string;
  code : option string;
  messageTemplate : option string;
  messageData : option (string * string)
}.

Definition plainError (msg : string) : JSError :=
  {| message := msg; code := None; messageTemplate := None; messageData := None |}.

Definition systemError (c msg : string) : JSError :=
  {| message := msg; code := Some c; messageTemplate := None; messageData := None |}.

Definition set_message (e : JSError) (msg : string) : JSError :=
  {| message := msg; code := code e;
     messageTemplate := messageTemplate e; messageData := messageData e |}.

Inductive Result (A : Type) : Type :=
| Ok (a : A)
| Throw (e : JSError).
Arguments Ok {A} a.
Arguments Throw {A} e.

#[global] Instance Result_ret : MRet Result := λ A a, Ok a.
#[global] Instance Result_bind : MBind Result := λ A B k r,
  match r with
  | Ok a => k a
  | Throw e => Throw e
  end.

(** [try { body } catch (e) { e = handler(e); throw e; }] *)
Definition try_rethrow {A} (body : Result A) (handler : JSError → JSError) : Result A :=
  match body with
  | Ok a => Ok a
  | Throw e => Throw (handler e)
  end.

(** The text of the [TypeError] for a property read on [null] or
    [undefined] is the engine's. *)
Definition TypeError_read (k : string) : JSError :=
  plainError ("Cannot read property '" +:+ k +:+ "' of null or undefined").

(** [v[k]] for a key that is neither an index, nor [length], nor a name
    on a prototype: objects answer with their field, other values with
    [undefined], and [null] and [undefined] throw. *)
Definition get_prop (v : JSValue) (k : string) : Result JSValue :=
  match v with
  | JUndefined | JNull => Throw (TypeError_read k)
  | JObj fields => Ok (default JUndefined (fields !! k))
  | _ => Ok JUndefined
  end.

(** The own property [k] of an object, if it has it. *)
Definition own_field (v : JSValue) (k : string) : option JSValue :=
  match v with
  | JObj fields => fields !! k
  | _ => None
  end.

(** [haystack.includes(needle)] as a proposition. *)
Definition contains (haystack needle : string) : Prop :=
  ∃ pre post, haystack = pre +:+ needle +:+ post.

(** ** The [path] module (POSIX) *)

Module Path.

(** The segments between the separators: ["a//b"] gives ["a"; ""; "b"]. *)
Fixpoint split_sep (p : string) : list string :=
  match p with
  | EmptyString => [""]
  | String c rest =>
      if bool_decide (c = "/"%char) then "" :: split_sep rest
      else match split_sep rest with
           | seg :: segs => String c seg :: segs
           | [] => [String c ""]
           end
  end.

(** One step of [normalizeString], on the segments kept so far (last
    first): empty and ["."] segments are dropped, [".."] removes the
    segment before it, or is kept when a relative path climbs above its
    start. *)
Definition normalize_step (allowAboveRoot : bool) (kept : list string) (seg : string)
  : list string :=
  if bool_decide (seg = "") || bool_decide (seg = ".") then kept
  else if bool_decide (seg = "..") then
    match kept with
    | top :: below =>
        if bool_decide (top = "..") then seg :: kept else below
    | [] => if allowAboveRoot then [seg] else []
    end
  else seg :: kept.

Definition normalize_segments (allowAboveRoot : bool) (segs : list string) : list string :=
  reverse (foldl (normalize_step allowAboveRoot) [] segs).

Definition starts_with_sep (p : string) : bool :=
  match p with
  | String c _ => bool_decide (c = "/"%char)
  | EmptyString => false
  end.

Fixpoint ends_with_sep (p : string) : bool :=
  match p with
  | EmptyString => false
  | String c EmptyString => bool_decide (c = "/"%char)
  | String _ rest => ends_with_sep rest
  end.

(** [path.normalize] *)
Definition normalize (p : string) : string :=
  if bool_decide (p = "") then "."
  else
    let isAbsolute := starts_with_sep p in
    let trailingSeparator := ends_with_sep p in
    let body := String.concat "/" (normalize_segments (negb isAbsolute) (split_sep p)) in
    if bool_decide (body = "") then
      if isAbsolute then "/" else if trailingSeparator then "./" else "."
    else
      (if isAbsolute then "/" else "") +:+ body +:+ (if trailingSeparator then "/" else "").

(** [path.join(a, b)] *)
Definition join (a b : string) : string :=
  if bool_decide (a = "") then normalize b
  else if bool_decide (b = "") then normalize a
  else normalize (a +:+ "/" +:+ b).

(** [path.basename(p)]: the last segment that is not empty. *)
Definition basename (p : string) : string :=
  List.last (filter (λ seg, seg ≠ "") (split_sep p)) "".

(** The name cut at its last dot: what is before it, and the rest from
    the dot on. *)
Fixpoint split_last_dot (name : string) : option (string * string) :=
  match name with
  | EmptyString => None
  | String c rest =>
      match split_last_dot rest with
      | Some (stem, ext) => Some (String c stem, ext)
      | None => if bool_decide (c = "."%char) then Some ("", name) else None
      end
  end.

(** [path.extname(p)]: from the last dot of the base name on; empty when
    there is no dot, when the last dot starts the name, and for [".."]. *)
Definition extname (p : string) : string :=
  let name := basename p in
  match split_last_dot name with
  | None => ""
  | Some (stem, ext) =>
      if bool_decide (stem = "") || bool_decide (name = "..") then "" else ext
  end.

Fixpoint has_sep (s : string) : bool :=
  match s with
  | EmptyString => false
  | String c rest => bool_decide (c = "/"%char) || has_sep rest
  end.

(** A name of a directory entry: one segment that is neither empty nor
    ["."] nor [".."]. *)
Definition is_entry_name (name : string) : bool :=
  negb (has_sep name) && negb (bool_decide (name = ""))
  && negb (bool_decide (name = ".")) && negb (bool_decide (name = "..")).

End Path.

(** ** The [deepmerge] package *)

(** [merge(target, source)] with the package's default options. Copies
    ([cloneUnlessOtherwiseSpecified]) are the values themselves, as
    values here are immutable. Keys that name a member of
    [Object.prototype] are left aside: in particular a key [__proto__] of
    the source is a field of the result here, where the package's
    assignment to it sets the prototype instead; statements about all
    keys of a configuration are for configurations without that key. *)
Module Deepmerge.

(** A non-null object that is neither a [RegExp] nor a [Date]. *)
Definition isMergeableObject (v : JSValue) : bool :=
  match v with
  | JArr _ | JObj _ => true
  | _ => false
  end.

(** [target[key]] as [mergeObject] reads it. *)
Definition target_prop (target : JSValue) (key : string) : JSValue :=
  match target with
  | JObj fields => default JUndefined (fields !! key)
  | _ => JUndefined
  end.

(** The keys [mergeObject] copies from the target first. *)
Definition target_fields (target : JSValue) : gmap string JSValue :=
  match target with
  | JObj fields => fields
  | _ => ∅
  end.

(** [Object.keys] of a string: its characters under their indices. *)
Fixpoint string_fields (i : nat) (s : string) : gmap string JSValue :=
  match s with
  | EmptyString => ∅
  | String c rest => <[pretty i := JStr (String c "")]> (string_fields (S i) rest)
  end.

(** [deepmerge]: arrays are concatenated ([defaultArrayMerge]); of an
    array and a value that is none the source wins; otherwise
    [mergeObject] starts from the target's keys and sets each key of the
    source, merging recursively where the source's value is mergeable
    and the target has a truthy value under the key. *)
Fixpoint deepmerge (target source : JSValue) {struct source} : JSValue :=
  match source with
  | JArr s =>
      match target with
      | JArr t => JArr (t ++ s)
      | _ => source
      end
  | JObj sfields =>
      match target with
      | JArr _ => source
      | _ =>
          JObj (map_imap (λ key s,
                  Some (if isMergeableObject s && truthy (target_prop target key)
                        then deepmerge (target_prop target key) s
                        else s)) sfields
                ∪ target_fields target)
      end
  | JStr s =>
      match target with
      | JArr _ => source
      | _ => JObj (string_fields 0 s ∪ target_fields target)
      end
  | _ =>
      match target with
      | JArr _ => source
      | _ => JObj (target_fields target)
      end
  end.

(** The entry point: [Object.keys(source)] throws on [null] and
    [undefined]. *)
Definition merge (target source : JSValue) : Result JSValue :=
  if nullish source
  then Throw (plainError "Cannot convert undefined or null to object")
  else Ok (deepmerge target source).

End Deepmerge.

(** ** lib/config-file.js *)

(** What the program reads from the machine: [fs.statSync],
    [fs.readFileSync(_, 'utf8')], the evaluation of a script by
    [import-fresh], the dotenv file, and the way [process.env] answers. *)
Record Stats : Type := { isFile : bool }.

Record World : Type := {
  statSync : string → Result Stats;
  readFileSync : string → Result string;
  importFresh : string → Result JSValue;
  (** [dotenv.config({ path: path.resolve(rootDir, file) })]: the
      environment with the variables of the file added, or the exception
      of [path.resolve]. Arguments: [rootDir], [file], [process.env]. *)
  dotenv_config : string → JSValue → gmap string string → Result (gmap string string);
  (** The names for which [process.env] does not look among the
      variables: none, or the array indices, depending on the version of
      Node. *)
  env_skips : string → bool
}.

(** The parsers the module calls: [yaml.safeLoad] of js-yaml,
    [JSON.parse] and [strip-json-comments]. *)
Record Parsers : Type := {
  yaml_safeLoad : string → Result JSValue;
  JSON_parse : string → Result JSValue;
  stripComments : string → string
}.

Definition LF : string := String (ascii_of_nat 10) "".

(** U+FEFF in UTF-8. *)
Definition BOM : string :=
  String (ascii_of_nat 239) (String (ascii_of_nat 187) (String (ascii_of_nat 191) "")).

Fixpoint strip_prefix (pre s : string) : option string :=
  match pre, s with
  | EmptyString, _ => Some s
  | String a pre', String b s' => if bool_decide (a = b) then strip_prefix pre' s' else None
  | String _ _, EmptyString => None
  end.

Module ConfigFile.

(** Modelled from the spec: lib/default-config.json is not part of the
    sources at hand. The fields are those of the specification's default
    configuration; the five messages are the ones the README lists. *)
Definition DEFAULT_TRANSLATIONS : gmap string JSValue :=
  <["missingRequired" :=
      JStr "Clean ENV did not find the following required ENV variables."]>
  (<["foundExcluded" :=
      JStr "Clean ENV has found the following excluded ENV variables in the ENV."]>
  (<["errorStatement" := JStr "Your ENV is not in a clean state."]>
  (<["errorQuestion" := JStr "Are you sure you want to continue with the build? (y)"]>
  (<["yes" := JStr "y"]> ∅)))).

Definition DEFAULT_FIELDS : gmap string JSValue :=
  <["required" := JArr []]>
  (<["excluded" := JArr []]>
  (<["dotenv" := JStr ".env"]>
  (<["translations" := JObj DEFAULT_TRANSLATIONS]> ∅))).

Definition DEFAULT_CONFIG : JSValue := JObj DEFAULT_FIELDS.

Definition CONFIG_FILES : list string :=
  [ ".clean-env.js";
    ".clean-env.yaml";
    ".clean-env.yml";
    ".clean-env.json";
    "package.json" ].

(** [Array.prototype.find] with a predicate that may throw. *)
Fixpoint array_find {A} (pred : A → Result bool) (l : list A) : Result (option A) :=
  match l with
  | [] => Ok None
  | x :: rest =>
      b ← pred x;
      if b : bool then Ok (Some x) else array_find pred rest
  end.

Section WithHost.

Context (lib : Parsers) (w : World).

Definition readFile (filePath : string) : Result string :=
  text ← readFileSync w filePath;
  Ok (default text (strip_prefix BOM text)).

(** [`Cannot read config file: ${filePath}\nError: ${e.message}`] *)
Definition cannot_read (filePath : string) (e : JSError) : string :=
  "Cannot read config file: " +:+ filePath +:+ LF +:+ "Error: " +:+ message e.

Definition loadYAMLConfigFile (filePath : string) : Result JSValue :=
  try_rethrow
    (text ← readFile filePath;
     doc ← yaml_safeLoad lib text;
     Ok (js_or doc (JObj ∅)))
    (λ e, set_message e (cannot_read filePath e)).

Definition loadJSONConfigFile (filePath : string) : Result JSValue :=
  try_rethrow
    (text ← readFile filePath;
     JSON_parse lib (stripComments lib text))
    (λ e,
       let msg := cannot_read filePath e in
       {| message := msg;
          code := code e;
          messageTemplate := Some "failed-to-read-json";
          messageData := Some (filePath, msg) |}).

Definition loadJSConfigFile (filePath : string) : Result JSValue :=
  try_rethrow
    (importFresh w filePath)
    (λ e, set_message e (cannot_read filePath e)).

Definition loadPackageJSONConfigFile (filePath : string) : Result JSValue :=
  try_rethrow
    (manifest ← loadJSONConfigFile filePath;
     field ← get_prop manifest "clean-env";
     Ok (js_or field JNull))
    (λ e, set_message e (cannot_read filePath e)).

Definition loadConfigFile (filePath : string) : Result JSValue :=
  let ext := Path.extname filePath in
  if bool_decide (ext = ".js") then loadJSConfigFile filePath
  else if bool_decide (ext = ".json") then
    if bool_decide (Path.basename filePath = "package.json") then
      config ← loadPackageJSONConfigFile filePath;
      match config with
      | JNull => Ok JNull
      | _ => Ok config
      end
    else loadJSONConfigFile filePath
  else if bool_decide (ext = ".yaml") || bool_decide (ext = ".yml") then
    loadYAMLConfigFile filePath
  else Ok (JObj ∅).

Definition isExistingFile (filename : string) : Result bool :=
  match statSync w filename with
  | Ok stats => Ok (isFile stats)
  | Throw err =>
      if bool_decide (code err = Some "ENOENT") then Ok false else Throw err
  end.

(** The path found, or [None] for [null]. *)
Definition getFilenameForDirectory (directory : string) : Result (option string) :=
  found ← array_find isExistingFile (map (λ filename, Path.join directory filename) CONFIG_FILES);
  match found with
  | Some filename => if bool_decide (filename = "") then Ok None else Ok (Some filename)
  | None => Ok None
  end.

Definition getConfig (directory : string) : Result JSValue :=
  configFile ← getFilenameForDirectory directory;
  match configFile with
  | Some filename =>
      loadedConfig ← loadConfigFile filename;
      if negb (nullish loadedConfig)
      then Deepmerge.merge DEFAULT_CONFIG loadedConfig
      else Ok DEFAULT_CONFIG
  | None => Ok DEFAULT_CONFIG
  end.

End WithHost.

(** *** Vocabulary for the statements *)

(** A regular file is at the path. *)
Definition regular_file (w : World) (path : string) : Prop :=
  ∃ stats, statSync w path = Ok stats ∧ isFile stats = true.

(** Nothing is at the path ([ENOENT]), or something that is not a regular
    file. *)
Definition no_regular_file (w : World) (path : string) : Prop :=
  (∃ err, statSync w path = Throw err ∧ code err = Some "ENOENT")
  ∨ (∃ stats, statSync w path = Ok stats ∧ isFile stats = false).

(** Nothing is at the path. *)
Definition missing (w : World) (path : string) : Prop :=
  ∃ err, statSync w path = Throw err ∧ code err = Some "ENOENT".

(** The file at [filePath], read in the format of its name, holds the
    configuration [config]: a script exports it, a YAML or JSON document
    is it, the manifest has it under [clean-env]. *)
Inductive file_holds (lib : Parsers) (w : World) (filePath : string) (config : JSValue)
  : Prop :=
| script_holds :
    Path.extname filePath = ".js" →
    importFresh w filePath = Ok config →
    file_holds lib w filePath config
| yaml_holds text :
    Path.extname filePath = ".yaml" ∨ Path.extname filePath = ".yml" →
    readFile w filePath = Ok text →
    yaml_safeLoad lib text = Ok config →
    file_holds lib w filePath config
| json_holds text :
    Path.extname filePath = ".json" →
    Path.basename filePath ≠ "package.json" →
    readFile w filePath = Ok text →
    JSON_parse lib (stripComments lib text) = Ok config →
    file_holds lib w filePath config
| manifest_holds text manifest :
    Path.basename filePath = "package.json" →
    readFile w filePath = Ok text →
    JSON_parse lib (stripComments lib text) = Ok (JObj manifest) →
    manifest !! "clean-env" = Some config →
    file_holds lib w filePath config.

(** Reading or parsing the file at [filePath], in the format of its name,
    fails with the error [e]. *)
Inductive read_or_parse_fails (lib : Parsers) (w : World) (filePath : string) (e : JSError)
  : Prop :=
| script_fails :
    Path.extname filePath = ".js" →
    importFresh w filePath = Throw e →
    read_or_parse_fails lib w filePath e
| read_fails :
    Path.extname filePath ≠ ".js" →
    readFileSync w filePath = Throw e →
    read_or_parse_fails lib w filePath e
| yaml_fails text :
    Path.extname filePath = ".yaml" ∨ Path.extname filePath = ".yml" →
    readFile w filePath = Ok text →
    yaml_safeLoad lib text = Throw e →
    read_or_parse_fails lib w filePath e
| json_fails text :
    Path.extname filePath = ".json" →
    readFile w filePath = Ok text →
    JSON_parse lib (stripComments lib text) = Throw e →
    read_or_parse_fails lib w filePath e.

End ConfigFile.

(** ** bin/clean-env.js *)

Module CleanEnv.

(** [String(v)], as a template literal and a property key convert. *)
Fixpoint to_string (v : JSValue) : string :=
  match v with
  | JUndefined => "undefined"
  | JNull => "null"
  | JBool b => if b then "true" else "false"
  | JNum n => pretty n
  | JStr s => s
  | JArr items =>
      String.concat "," (map (λ item, if nullish item then "" else to_string item) items)
  | JObj _ => "[object Object]"
  end.

(** What a read of a property of [process.env] gives: the value of a
    variable, a member that every object inherits, or [undefined]. *)
Inductive EnvValue : Type :=
| EnvString (value : string)
| EnvInherited (member : string)
| EnvUndefined.

(** [v == null] for such a value. *)
Definition env_nullish (v : EnvValue) : bool :=
  match v with
  | EnvUndefined => true
  | _ => false
  end.

(** The members of [Object.prototype], which [process.env] inherits. *)
Definition OBJECT_PROTOTYPE : list string :=
  [ "constructor"; "__defineGetter__"; "__defineSetter__"; "hasOwnProperty";
    "__lookupGetter__"; "__lookupSetter__"; "isPrototypeOf"; "propertyIsEnumerable";
    "toString"; "valueOf"; "__proto__"; "toLocaleString" ].

Section Environment.

(** The names for which [process.env] does not look among the variables
    ([env_skips] of the world). *)
Context (skips : string → bool).

(** [process.env[key]]: the variable of that name, if the name is looked
    up among the variables and there is one; otherwise what the prototype
    has under the name. *)
Definition process_env (env : gmap string string) (key : JSValue) : EnvValue :=
  let name := to_string key in
  match (if skips name then None else env !! name) with
  | Some value => EnvString value
  | None =>
      if bool_decide (name ∈ OBJECT_PROTOTYPE) then EnvInherited name else EnvUndefined
  end.

(** The rows of the two tables: [{name}] and [{name, value}]. *)
Inductive Row : Type :=
| NameRow (name : JSValue)
| NameValueRow (name : JSValue) (value : EnvValue).

Definition missingRequired (required : list JSValue) (env : gmap string string)
  : list Row :=
  map (λ key, NameRow key)
      (filter (λ key, env_nullish (process_env env key)) required).

Definition foundExcluded (excluded : list JSValue) (env : gmap string string)
  : list Row :=
  map (λ key, NameValueRow key (process_env env key))
      (filter (λ key, negb (env_nullish (process_env env key))) excluded).

End Environment.

(** [answer === v] for the string [answer]. *)
Definition strict_equal_string (answer : string) (v : JSValue) : bool :=
  match v with
  | JStr s => bool_decide (answer = s)
  | _ => false
  end.

(** The receiver of [.filter(...)]: the items of an array; anything else
    has no such method. *)
Definition filter_receiver (v : JSValue) : Result (list JSValue) :=
  match v with
  | JArr items => Ok items
  | JUndefined | JNull => Throw (TypeError_read "filter")
  | _ => Throw (plainError "filter is not a function")
  end.

(** What the process does that can be seen from outside. *)
Inductive Event : Type :=
| ConsoleLog (line : option JSValue)
| ConsoleTable (rows : list Row)
| Question (query : string).

Inductive Ending : Type :=
| Exit (status : Z)
| Uncaught (e : JSError).

Record Run : Type := { events : list Event; ending : Ending }.

(** Statements of the script: they add to the events so far and yield a
    value or throw. *)
Definition Script (A : Type) : Type := list Event → list Event * Result A.

#[export] Instance Script_ret : MRet Script := λ A a evs, (evs, Ok a).
#[export] Instance Script_bind : MBind Script := λ A B k m evs,
  match m evs with
  | (evs', Ok a) => k a evs'
  | (evs', Throw e) => (evs', Throw e)
  end.

Definition emit (ev : Event) : Script () := λ evs, (evs ++ [ev], Ok ()).
Definition eval {A} (r : Result A) : Script A := λ evs, (evs, r).

(** The process ends with the status the script asks for, or with the
    exception that nothing caught. *)
Definition run (script : Script Z) : Run :=
  match script [] with
  | (evs, Ok status) => {| events := evs; ending := Exit status |}
  | (evs, Throw e) => {| events := evs; ending := Uncaught e |}
  end.

Section Main.

Context (lib : Parsers) (w : World).

(** [config.translations[key]] *)
Definition translation (config : JSValue) (key : string) : Script JSValue :=
  translations ← eval (get_prop config "translations");
  eval (get_prop translations key).

(** The asynchronous function [check]. [stdin] is the line that
    [readline] hands to the callback of [question], or [None] when the
    input ends without one: then the callback never runs, neither call of
    [process.exit] is reached, and the process ends with status 0 once
    nothing is left to wait for. *)
Definition check (config : JSValue) (stdin : option string) : Script Z :=
  emit (ConsoleLog None);;
  statement ← translation config "errorStatement";
  emit (ConsoleLog (Some statement));;
  question ← translation config "errorQuestion";
  emit (Question (to_string question +:+ " "));;
  match stdin with
  | Some answer =>
      yes ← translation config "yes";
      if strict_equal_string answer yes then mret 0%Z else mret 1%Z
  | None => mret 0%Z
  end.

(** The list is reported under its heading when it has entries;
    the result is the new value of [safe]. *)
Definition report (config : JSValue) (heading : string) (rows : list Row)
    (safe : bool) : Script bool :=
  if bool_decide (0 < length rows)%nat then
    emit (ConsoleLog None);;
    title ← translation config heading;
    emit (ConsoleLog (Some title));;
    emit (ConsoleTable rows);;
    mret false
  else mret safe.

(** The script from its first line to the end of the process. *)
Definition main (rootDir : string) (env0 : gmap string string) (stdin : option string)
  : Script Z :=
  config ← eval (ConfigFile.getConfig lib w rootDir);
  dotenv ← eval (get_prop config "dotenv");
  env ← (if truthy dotenv
         then eval (dotenv_config w rootDir dotenv env0)
         else mret env0);
  required ← eval (get_prop config "required");
  requiredKeys ← eval (filter_receiver required);
  let missing := missingRequired (env_skips w) requiredKeys env in
  excluded ← eval (get_prop config "excluded");
  excludedKeys ← eval (filter_receiver excluded);
  let found := foundExcluded (env_skips w) excludedKeys env in
  safe ← report config "missingRequired" missing true;
  safe ← report config "foundExcluded" found safe;
  if negb safe then check config stdin else mret 0%Z.

End Main.

End CleanEnv.

(** [String.prototype.trim], on the ASCII white space; the program never
    calls it, the specification speaks of it. *)
Module Trim.

Definition is_space (c : ascii) : bool :=
  let n := nat_of_ascii c in
  bool_decide (n = 32 ∨ (9 ≤ n ∧ n ≤ 13))%nat.

Fixpoint trim_start (s : string) : string :=
  match s with
  | String c rest => if is_space c then trim_start rest else s
  | EmptyString => s
  end.

Fixpoint trim_end (s : string) : string :=
  match s with
  | EmptyString => s
  | String c rest =>
      match trim_end rest with
      | EmptyString => if is_space c then "" else String c ""
      | rest' => String c rest'
      end
  end.

Definition trim (s : string) : string := trim_end (trim_start s).

End Trim.

(** ** Concrete hosts

    A disk given as a finite map, and executable stand-ins for the
    parsers, to run the program on examples. The theorems below hold for
    every [World] and every [Parsers]; these are used where a statement
    needs an instance. *)
Module Host.

Inductive Node : Type :=
| File (content : string)
| Directory
| Failing (errno : string).

Definition stat_error (errno path : string) : JSError :=
  systemError errno (errno +:+ ": stat '" +:+ path +:+ "'").

(** An array index as a property name: [0], or digits that do not start
    with [0], below 4294967295. *)
Definition is_array_index (name : string) : bool :=
  match name with
  | EmptyString => false
  | String c rest =>
      forallb (λ d, bool_decide (48 ≤ nat_of_ascii d ∧ nat_of_ascii d ≤ 57)%nat)
              (String.list_ascii_of_string name)
      && (bool_decide (rest = "") || negb (bool_decide (c = "0"%char)))
      && bool_decide
           (foldl (λ n d, 10 * n + (Z.of_nat (nat_of_ascii d) - 48))%Z 0%Z
                  (String.list_ascii_of_string name) < 4294967295)%Z
  end.

(** A disk and the values the scripts on it export. The dotenv file is
    taken to be missing, which [dotenv.config] tolerates; [path.resolve]
    accepts strings only; [process.env] does not answer for array
    indices. *)
Definition world (disk : gmap string Node) (scripts : gmap string (Result JSValue))
  : World :=
  {| statSync path :=
       match disk !! path with
       | Some (File _) => Ok {| isFile := true |}
       | Some Directory => Ok {| isFile := false |}
       | Some (Failing errno) => Throw (stat_error errno path)
       | None => Throw (stat_error "ENOENT" path)
       end;
     readFileSync path :=
       match disk !! path with
       | Some (File content) => Ok content
       | Some Directory => Throw (systemError "EISDIR" "EISDIR: illegal operation on a directory, read")
       | Some (Failing errno) => Throw (systemError errno (errno +:+ ": open '" +:+ path +:+ "'"))
       | None => Throw (systemError "ENOENT" ("ENOENT: no such file or directory, open '" +:+ path +:+ "'"))
       end;
     importFresh path :=
       default (Throw (plainError ("Cannot find module '" +:+ path +:+ "'"))) (scripts !! path);
     dotenv_config _ file env :=
       match file with
       | JStr _ => Ok env
       | _ => Throw (plainError "The path argument must be of type string")
       end;
     env_skips := is_array_index |}.

(** *** strip-json-comments

    One pass over the text: outside strings, [//] to the end of the line
    and [/*] to [*/] are comments; a comment's characters are replaced by
    spaces, its white space kept. [prev1] and [prev2] are the two
    characters before the current one; [skip] marks the second character
    of a two-character token. *)
Inductive Mode : Type := Code | InString | SingleComment | MultiComment.

Definition double_quote : ascii := ascii_of_nat 34.

Definition blank (c : ascii) : ascii := if Trim.is_space c then c else " "%char.

Definition next_char (s : string) : option ascii :=
  match s with
  | String c _ => Some c
  | EmptyString => None
  end.

Fixpoint strip_from (mode : Mode) (skip : bool) (prev1 prev2 : option ascii) (s : string)
  : string :=
  match s with
  | EmptyString => ""
  | String c rest =>
      let continue mode skip := strip_from mode skip (Some c) prev1 rest in
      if skip then String (blank c) (continue mode false)
      else
        let quote := bool_decide (c = double_quote) in
        let escaped := bool_decide (prev1 = Some "\"%char) && negb (bool_decide (prev2 = Some "\"%char)) in
        let next := next_char rest in
        match mode with
        | Code =>
            if quote && negb escaped then String c (continue InString false)
            else if bool_decide (c = "/"%char) && bool_decide (next = Some "/"%char)
            then String " " (continue SingleComment true)
            else if bool_decide (c = "/"%char) && bool_decide (next = Some "*"%char)
            then String " " (continue MultiComment true)
            else String c (continue Code false)
        | InString =>
            if quote && negb escaped then String c (continue Code false)
            else String c (continue InString false)
        | SingleComment =>
            if bool_decide (c = "013"%char) && bool_decide (next = Some "010"%char)
            then String c (continue Code true)
            else if bool_decide (c = "010"%char) then String c (continue Code false)
            else String (blank c) (continue SingleComment false)
        | MultiComment =>
            if bool_decide (c = "*"%char) && bool_decide (next = Some "/"%char)
            then String " " (continue Code true)
            else String (blank c) (continue MultiComment false)
        end
  end.

Definition strip_json_comments (text : string) : string :=
  strip_from Code false None None text.

(** *** JSON.parse

    A recursive-descent parser for JSON without fractions, exponents
    and [\u] escapes, which it rejects. [fuel] bounds the number of
    nested calls. *)
Definition is_json_space (c : ascii) : bool :=
  let n := nat_of_ascii c in
  bool_decide (n = 32 ∨ n = 9 ∨ n = 10 ∨ n = 13)%nat.

Fixpoint skip_space (s : string) : string :=
  match s with
  | String c rest => if is_json_space c then skip_space rest else s
  | EmptyString => s
  end.

Definition unescape (c : ascii) : option ascii :=
  if bool_decide (c = double_quote) then Some c
  else if bool_decide (c = "\"%char) then Some c
  else if bool_decide (c = "/"%char) then Some c
  else if bool_decide (c = "b"%char) then Some (ascii_of_nat 8)
  else if bool_decide (c = "f"%char) then Some (ascii_of_nat 12)
  else if bool_decide (c = "n"%char) then Some (ascii_of_nat 10)
  else if bool_decide (c = "r"%char) then Some (ascii_of_nat 13)
  else if bool_decide (c = "t"%char) then Some (ascii_of_nat 9)
  else None.

(** The characters of a string literal after its opening quote, and what
    follows the closing quote. *)
Fixpoint parse_chars (s : string) : option (string * string) :=
  match s with
  | EmptyString => None
  | String c rest =>
      if bool_decide (c = double_quote) then Some ("", rest)
      else if bool_decide (c = "\"%char) then
        match rest with
        | String e rest' =>
            c' ← unescape e;
            '(chars, after) ← parse_chars rest';
            Some (String c' chars, after)
        | EmptyString => None
        end
      else if bool_decide (nat_of_ascii c < 32)%nat then None
      else
        '(chars, after) ← parse_chars rest;
        Some (String c chars, after)
  end.

Definition digit (c : ascii) : option Z :=
  let n := nat_of_ascii c in
  if bool_decide (48 ≤ n ∧ n ≤ 57)%nat then Some (Z.of_nat n - 48)%Z else None.

Fixpoint parse_digits (acc : Z) (s : string) : Z * string :=
  match s with
  | String c rest =>
      match digit c with
      | Some d => parse_digits (10 * acc + d)%Z rest
      | None => (acc, s)
      end
  | EmptyString => (acc, s)
  end.

(** An integer literal: [0], or digits that do not start with [0]. *)
Definition parse_int (s : string) : option (Z * string) :=
  match s with
  | String c rest =>
      d ← digit c;
      let '(n, after) := if bool_decide (d = 0%Z) then (0%Z, rest) else parse_digits d rest in
      match after with
      | String c' _ =>
          if bool_decide (c' = "."%char ∨ c' = "e"%char ∨ c' = "E"%char) || bool_decide (is_Some (digit c'))
          then None else Some (n, after)
      | EmptyString => Some (n, after)
      end
  | EmptyString => None
  end.

Fixpoint parse_value (fuel : nat) (s : string) : option (JSValue * string) :=
  match fuel with
  | O => None
  | S fuel =>
      match skip_space s with
      | String c rest =>
          if bool_decide (c = "{"%char) then
            match skip_space rest with
            | String c' rest' =>
                if bool_decide (c' = "}"%char) then Some (JObj ∅, rest')
                else parse_members fuel ∅ (skip_space rest)
            | EmptyString => None
            end
          else if bool_decide (c = "["%char) then
            match skip_space rest with
            | String c' rest' =>
                if bool_decide (c' = "]"%char) then Some (JArr [], rest')
                else parse_elements fuel [] rest
            | EmptyString => None
            end
          else if bool_decide (c = double_quote) then
            '(chars, after) ← parse_chars rest;
            Some (JStr chars, after)
          else if bool_decide (c = "-"%char) then
            '(n, after) ← parse_int rest;
            Some (JNum (- n), after)
          else if bool_decide (is_Some (digit c)) then
            '(n, after) ← parse_int (String c rest);
            Some (JNum n, after)
          else
            match strip_prefix "true" (String c rest),
                  strip_prefix "false" (String c rest),
                  strip_prefix "null" (String c rest) with
            | Some after, _, _ => Some (JBool true, after)
            | _, Some after, _ => Some (JBool false, after)
            | _, _, Some after => Some (JNull, after)
            | _, _, _ => None
            end
      | EmptyString => None
      end
  end

(** The members of an object from a key on, up to the closing brace. *)
with parse_members (fuel : nat) (acc : gmap string JSValue) (s : string)
  : option (JSValue * string) :=
  match fuel with
  | O => None
  | S fuel =>
      match s with
      | String q rest =>
          if bool_decide (q = double_quote) then
            '(key, after) ← parse_chars rest;
            match skip_space after with
            | String colon after' =>
                if bool_decide (colon = ":"%char) then
                  '(v, after'') ← parse_value fuel after';
                  match skip_space after'' with
                  | String c next =>
                      if bool_decide (c = "}"%char) then Some (JObj (<[key := v]> acc), next)
                      else if bool_decide (c = ","%char)
                      then parse_members fuel (<[key := v]> acc) (skip_space next)
                      else None
                  | EmptyString => None
                  end
                else None
            | EmptyString => None
            end
          else None
      | EmptyString => None
      end
  end

(** The elements of an array, up to the closing bracket. *)
with parse_elements (fuel : nat) (acc : list JSValue) (s : string)
  : option (JSValue * string) :=
  match fuel with
  | O => None
  | S fuel =>
      '(v, after) ← parse_value fuel s;
      match skip_space after with
      | String c next =>
          if bool_decide (c = "]"%char) then Some (JArr (acc ++ [v]), next)
          else if bool_decide (c = ","%char) then parse_elements fuel (acc ++ [v]) next
          else None
      | EmptyString => None
      end
  end.

Definition SyntaxError : JSError := plainError "Unexpected token in JSON".

Definition json_parse (text : string) : Result JSValue :=
  match parse_value (S (String.length text)) text with
  | Some (v, after) =>
      match skip_space after with
      | EmptyString => Ok v
      | _ => Throw SyntaxError
      end
  | None => Throw SyntaxError
  end.

(** *** js-yaml

    A stand-in for [yaml.safeLoad] on the two kinds of document the
    examples need: the empty document, which loads as [undefined], and a
    document in flow style that is also JSON. *)
Definition yaml_load (text : string) : Result JSValue :=
  match Trim.trim text with
  | EmptyString => Ok JUndefined
  | _ =>
      match json_parse text with
      | Ok v => Ok v
      | Throw _ => Throw (plainError "YAMLException: unsupported document")
      end
  end.

Definition parsers : Parsers :=
  {| yaml_safeLoad := yaml_load;
     JSON_parse := json_parse;
     stripComments := strip_json_comments |}.

End Host.

(** ** Example projects *)

Module Examples.

Definition project : string := "/srv/app".

(** [name] between double quotes. *)
Definition quoted (name : string) : string :=
  String Host.double_quote name +:+ String Host.double_quote "".

(** [{"clean-env": {"required": ["API_KEY"]}}] *)
Definition manifest_text : string :=
  "{" +:+ quoted "clean-env" +:+ ": {" +:+ quoted "required" +:+ ": ["
      +:+ quoted "API_KEY" +:+ "]}}".

(** The same manifest with a comment after it. *)
Definition commented_manifest_text : string := manifest_text +:+ " // build settings".

(** [{"name": "app"}] *)
Definition plain_manifest_text : string :=
  "{" +:+ quoted "name" +:+ ": " +:+ quoted "app" +:+ "}".

(** A JSON document that breaks off. *)
Definition broken_json_text : string := "{" +:+ quoted "required" +:+ ": [".

Definition file_at (name content : string) : gmap string Host.Node :=
  {[ project +:+ "/" +:+ name := Host.File content ]}.

(** No configuration at all. *)
Definition bare : World := Host.world ∅ ∅.

(** A directory named like the script, a YAML file and a manifest. *)
Definition mixed : World :=
  Host.world (<[project +:+ "/.clean-env.js" := Host.Directory]>
               (file_at ".clean-env.yml" "" ∪ file_at "package.json" manifest_text)) ∅.

(** A directory named like the script, and a YAML name that cannot be
    inspected. *)
Definition guarded : World :=
  Host.world (<[project +:+ "/.clean-env.js" := Host.Directory]>
               (<[project +:+ "/.clean-env.yaml" := Host.Failing "EACCES"]>
                 (file_at "package.json" manifest_text))) ∅.

(** A JSON file that does not parse, next to a manifest that does. *)
Definition broken : World :=
  Host.world (file_at ".clean-env.json" broken_json_text
              ∪ file_at "package.json" manifest_text) ∅.

Definition with_manifest (text : string) : World :=
  Host.world (file_at "package.json" text) ∅.

Definition with_empty_yaml : World := Host.world (file_at ".clean-env.yaml" "") ∅.

End Examples.

(** ** Further vocabulary and examples *)

(** The world [w] with another effect of [dotenv.config]. *)
Definition with_dotenv_config (w : World)
    (f : string → JSValue → gmap string string → Result (gmap string string)) : World :=
  {| statSync := statSync w;
     readFileSync := readFileSync w;
     importFresh := importFresh w;
     dotenv_config := f;
     env_skips := env_skips w |}.

(** A name that [process.env] answers for from the variables alone: it is
    looked up among them and is no member of [Object.prototype]. *)
Definition own_name (skips : string → bool) (name : string) : Prop :=
  skips name = false ∧ name ∉ CleanEnv.OBJECT_PROTOTYPE.

(** No object in the value has the key [__proto__]. *)
Fixpoint proto_free (v : JSValue) : bool :=
  match v with
  | JArr items => forallb proto_free items
  | JObj fields =>
      negb (bool_decide (is_Some (fields !! "__proto__")))
      && map_fold (λ _ field rest, proto_free field && rest) true fields
  | _ => true
  end.

(** The values that are neither objects, nor arrays, nor strings with
    characters. *)
Definition is_scalar (v : JSValue) : bool :=
  match v with
  | JArr _ | JObj _ => false
  | JStr s => bool_decide (s = "")
  | _ => true
  end.

(** What is printed for a list that has rows: an empty line, the title
    and the table. *)
Definition table_section (title : JSValue) (rows : list CleanEnv.Row)
  : list CleanEnv.Event :=
  match rows with
  | [] => []
  | _ => [CleanEnv.ConsoleLog None; CleanEnv.ConsoleLog (Some title);
          CleanEnv.ConsoleTable rows]
  end.

Module MoreExamples.

(** A project whose only configuration is a script with the given
    export. *)
Definition with_script (exports : Result JSValue) : World :=
  Host.world (Examples.file_at ".clean-env.js" "module.exports = ...")
             {[ "/srv/app/.clean-env.js" := exports ]}.

(** A project whose only configuration is [.clean-env.json]. *)
Definition with_json (text : string) : World :=
  Host.world (Examples.file_at ".clean-env.json" text) ∅.

(** [{"required": "API_KEY"}] *)
Definition string_required_text : string :=
  "{" +:+ Examples.quoted "required" +:+ ": " +:+ Examples.quoted "API_KEY" +:+ "}".

(** [{"dotenv": false, "excluded": ["DEBUG"]}] *)
Definition no_dotenv_text : string :=
  "{" +:+ Examples.quoted "dotenv" +:+ ": false, " +:+ Examples.quoted "excluded"
      +:+ ": [" +:+ Examples.quoted "DEBUG" +:+ "]}".

(** [{"translations": "none", "required": ["API_KEY"]}] *)
Definition string_translations_text : string :=
  "{" +:+ Examples.quoted "translations" +:+ ": " +:+ Examples.quoted "none" +:+ ", "
      +:+ Examples.quoted "required" +:+ ": [" +:+ Examples.quoted "API_KEY" +:+ "]}".

(** A project without configuration and with another file in it. *)
Definition with_readme : World :=
  Host.world (Examples.file_at "README.md" "# app") ∅.

(** A dotenv loader that would define every variable asked for later. *)
Definition eager_dotenv (rootDir : string) (file : JSValue) (env : gmap string string)
  : Result (gmap string string) :=
  Ok (<["DEBUG" := "1"]> env).

End MoreExamples.

(** * Properties *)

(** ** Strings and paths *)

Lemma append_nil (b : string) : "" +:+ b = b.
Proof. reflexivity. Qed.

Lemma append_cons (c : ascii) (a b : string) : String c a +:+ b = String c (a +:+ b).
Proof. reflexivity. Qed.

Lemma append_empty_r (s : string) : s +:+ "" = s.
Proof. induction s as [|c s IH]; [done |]. by rewrite append_cons, IH. Qed.

Lemma append_assoc (a b c : string) : (a +:+ b) +:+ c = a +:+ (b +:+ c).
Proof. induction a as [|x a IH]; [done |]. by rewrite !append_cons, IH. Qed.

Lemma append_eq_empty (a b : string) : a +:+ b = "" → a = "" ∧ b = "".
Proof. destruct a; [done |]. rewrite append_cons. discriminate. Qed.

Lemma contains_refl (s : string) : contains s s.
Proof. exists "", "". by rewrite append_nil, append_empty_r. Qed.

Lemma contains_append_l (pre s needle : string) :
  contains s needle → contains (pre +:+ s) needle.
Proof.
  intros (a & b & ->). exists (pre +:+ a), b. by rewrite append_assoc.
Qed.

Lemma contains_append_r (s post needle : string) :
  contains s needle → contains (s +:+ post) needle.
Proof.
  intros (a & b & ->). exists a, (b +:+ post). by rewrite !append_assoc.
Qed.

Lemma contains_trans (a b c : string) : contains a b → contains b c → contains a c.
Proof.
  intros (p & q & ->) Hbc. by apply contains_append_l, contains_append_r.
Qed.

Module PathFacts.
Import Path.

Lemma split_sep_not_nil p : split_sep p ≠ [].
Proof.
  destruct p as [|c p]; simpl; [done |].
  case_bool_decide; [done |]. by destruct (split_sep p).
Qed.

Lemma split_sep_segment name : has_sep name = false → split_sep name = [name].
Proof.
  induction name as [|c name IH]; simpl; [done |].
  intros [Hc Hname]%orb_false_elim.
  rewrite Hc, (IH Hname). done.
Qed.

Lemma split_sep_append a b :
  split_sep (a +:+ "/" +:+ b) = split_sep a ++ split_sep b.
Proof.
  induction a as [|c a IH]; [done |].
  rewrite append_cons. simpl. rewrite IH. case_bool_decide; [done |].
  pose proof (split_sep_not_nil a). by destruct (split_sep a).
Qed.

Lemma normalize_step_entry allow kept name :
  is_entry_name name = true → normalize_step allow kept name = name :: kept.
Proof.
  unfold is_entry_name, normalize_step.
  rewrite !andb_true_iff, !negb_true_iff.
  intros [[[_ ->] ->] ->]. done.
Qed.

Lemma normalize_segments_entry allow segs name :
  is_entry_name name = true →
  normalize_segments allow (segs ++ [name]) = normalize_segments allow segs ++ [name].
Proof.
  intros Hname. unfold normalize_segments.
  rewrite foldl_app. simpl. rewrite normalize_step_entry by done.
  by rewrite reverse_cons.
Qed.

Lemma concat_entry segs name :
  String.concat "/" (segs ++ [name]) = name
  ∨ ∃ a, String.concat "/" (segs ++ [name]) = a +:+ "/" +:+ name.
Proof.
  induction segs as [|seg segs IH]; [by left |].
  right. simpl.
  destruct (segs ++ [name]) as [|x rest] eqn:E; [by destruct segs |].
  destruct IH as [->|[a ->]].
  - by exists seg.
  - exists (seg +:+ "/" +:+ a). by rewrite !append_assoc.
Qed.

Lemma ends_with_sep_append a b : b ≠ "" → ends_with_sep (a +:+ b) = ends_with_sep b.
Proof.
  intros Hb. induction a as [|c a IH]; [done |].
  rewrite append_cons. simpl.
  destruct (a +:+ b) eqn:E; [by apply append_eq_empty in E as [_ ?] | done].
Qed.

Lemma ends_with_sep_segment name : has_sep name = false → ends_with_sep name = false.
Proof.
  induction name as [|c name IH]; simpl; [done |].
  intros [Hc Hname]%orb_false_elim. destruct name; [done | by apply IH].
Qed.

Lemma entry_name_inv name :
  is_entry_name name = true → has_sep name = false ∧ name ≠ "".
Proof.
  unfold is_entry_name. rewrite !andb_true_iff, !negb_true_iff.
  intros [[[? ?%bool_decide_eq_false] _] _]. done.
Qed.

(** Normalising a path whose last segment is an entry name keeps that
    name at the end, after a separator if anything comes before it. *)
Lemma normalize_entry p segs name :
  is_entry_name name = true →
  split_sep p = segs ++ [name] →
  ends_with_sep p = false →
  normalize p = name ∨ ∃ a, normalize p = a +:+ "/" +:+ name.
Proof.
  intros Hname Hsplit Hend.
  destruct (entry_name_inv name Hname) as [_ Hne].
  unfold normalize. case_bool_decide as Hp.
  { subst p. simpl in Hsplit. destruct segs as [|? [|]]; simplify_eq/=. }
  rewrite Hsplit, Hend, normalize_segments_entry by done.
  set (kept := normalize_segments _ segs).
  destruct (concat_entry kept name) as [E|[a E]]; rewrite E.
  - rewrite bool_decide_eq_false_2 by done. rewrite append_empty_r.
    destruct (starts_with_sep p); [right; by exists "" | by left].
  - rewrite bool_decide_eq_false_2 by (by destruct a).
    rewrite append_empty_r. right.
    destruct (starts_with_sep p); [by exists ("/" +:+ a) | by exists a].
Qed.

Lemma join_entry directory name :
  is_entry_name name = true →
  join directory name = name ∨ ∃ a, join directory name = a +:+ "/" +:+ name.
Proof.
  intros Hname. destruct (entry_name_inv name Hname) as [Hsep Hne].
  unfold join. case_bool_decide.
  - apply (normalize_entry name []); [done | by apply split_sep_segment |].
    by apply ends_with_sep_segment.
  - rewrite bool_decide_eq_false_2 by done.
    apply (normalize_entry _ (split_sep directory)); [done | |].
    + rewrite split_sep_append. by rewrite (split_sep_segment name).
    + rewrite <- (ends_with_sep_segment name Hsep).
      rewrite <- append_assoc. by apply ends_with_sep_append.
Qed.

Lemma basename_segment name : is_entry_name name = true → basename name = name.
Proof.
  intros [Hsep Hne]%entry_name_inv. unfold basename.
  rewrite split_sep_segment by done. by rewrite filter_cons_True.
Qed.

Lemma basename_append a name :
  is_entry_name name = true → basename (a +:+ "/" +:+ name) = name.
Proof.
  intros [Hsep Hne]%entry_name_inv. unfold basename.
  rewrite split_sep_append, (split_sep_segment name), filter_app by done.
  rewrite filter_cons_True, filter_nil by done. apply last_last.
Qed.

Lemma basename_join directory name :
  is_entry_name name = true → basename (join directory name) = name.
Proof.
  intros Hname. destruct (join_entry directory name Hname) as [->|[a ->]].
  - by apply basename_segment.
  - by apply basename_append.
Qed.

Lemma extname_join directory name :
  is_entry_name name = true → extname (join directory name) = extname name.
Proof.
  intros Hname. unfold extname.
  by rewrite basename_join, basename_segment.
Qed.

Lemma join_not_empty directory name :
  is_entry_name name = true → join directory name ≠ "".
Proof.
  intros Hname. destruct (entry_name_inv name Hname) as [_ Hne].
  destruct (join_entry directory name Hname) as [->|[a ->]]; [done |].
  intros [_ [=]]%append_eq_empty.
Qed.

Lemma join_contains directory name :
  is_entry_name name = true → contains (join directory name) name.
Proof.
  intros Hname. destruct (join_entry directory name Hname) as [->|[a ->]].
  - apply contains_refl.
  - exists (a +:+ "/"), "". by rewrite append_empty_r, append_assoc.
Qed.

End PathFacts.

(** ** Discovery of the configuration file *)

Module ConfigFacts.
Import ConfigFile.

Lemma candidates_are_entry_names :
  Forall (λ filename, Path.is_entry_name filename = true) CONFIG_FILES.
Proof. repeat constructor. Qed.

Lemma candidate_entry_name filename :
  filename ∈ CONFIG_FILES → Path.is_entry_name filename = true.
Proof.
  intros Hin. by apply (proj1 (Forall_forall _ _) candidates_are_entry_names).
Qed.

Lemma candidate_cases filename :
  filename ∈ CONFIG_FILES →
  filename = ".clean-env.js" ∨ filename = ".clean-env.yaml" ∨ filename = ".clean-env.yml"
  ∨ filename = ".clean-env.json" ∨ filename = "package.json".
Proof. unfold CONFIG_FILES. rewrite !elem_of_cons, elem_of_nil. tauto. Qed.

Lemma array_find_skip {A} (pred : A → Result bool) (pre rest : list A) :
  (∀ x, x ∈ pre → pred x = Ok false) →
  array_find pred (pre ++ rest) = array_find pred rest.
Proof.
  induction pre as [|x pre IH]; intros Hpre; [done |].
  simpl. rewrite (Hpre x) by left. simpl.
  apply IH. intros y Hy. apply Hpre. by right.
Qed.

Lemma array_find_none {A} (pred : A → Result bool) (l : list A) :
  (∀ x, x ∈ l → pred x = Ok false) → array_find pred l = Ok None.
Proof.
  intros Hl. rewrite <- (app_nil_r l). by rewrite array_find_skip.
Qed.

Lemma array_find_some {A} (pred : A → Result bool) (l : list A) (x : A) :
  array_find pred l = Ok (Some x) → x ∈ l ∧ pred x = Ok true.
Proof.
  induction l as [|y l IH]; simpl; [done |].
  destruct (pred y) as [[|]|e] eqn:E; simpl.
  - intros [= ->]. split; [left | done].
  - intros [Hin Hx]%IH. split; [by right | done].
  - done.
Qed.

Lemma array_find_some_split {A} (pred : A → Result bool) (l : list A) (x : A) :
  array_find pred l = Ok (Some x) →
  ∃ pre post, l = pre ++ x :: post ∧ pred x = Ok true
              ∧ ∀ y, y ∈ pre → pred y = Ok false.
Proof.
  induction l as [|y l IH]; simpl; [done |].
  destruct (pred y) as [[|]|e] eqn:E; simpl.
  - intros [= ->]. exists [], l. split; [done |]. split; [done |].
    intros z Hz. by apply elem_of_nil in Hz.
  - intros (pre & post & -> & Hx & Hpre)%IH.
    exists (y :: pre), post. split; [done |]. split; [done |].
    intros z [->|Hz]%elem_of_cons; auto.
  - done.
Qed.

Section Discovery.
Context (w : World).

Lemma isExistingFile_true_inv path :
  isExistingFile w path = Ok true → regular_file w path.
Proof.
  unfold isExistingFile, regular_file.
  destruct (statSync w path) as [stats|err].
  - intros [= Hfile]. by exists stats.
  - by case_bool_decide.
Qed.

Lemma isExistingFile_false_inv path :
  isExistingFile w path = Ok false → no_regular_file w path.
Proof.
  unfold isExistingFile, no_regular_file.
  destruct (statSync w path) as [stats|err].
  - intros [= Hfile]. right. by exists stats.
  - case_bool_decide; [| done]. intros _. left. by exists err.
Qed.

Lemma isExistingFile_regular path :
  regular_file w path → isExistingFile w path = Ok true.
Proof. intros (stats & Hstat & Hfile). unfold isExistingFile. by rewrite Hstat, Hfile. Qed.

Lemma isExistingFile_no_regular path :
  no_regular_file w path → isExistingFile w path = Ok false.
Proof.
  unfold isExistingFile.
  intros [(err & -> & Hcode)|(stats & -> & Hfile)]; [| by rewrite Hfile].
  by rewrite bool_decide_eq_true_2.
Qed.

Lemma isExistingFile_error path err :
  statSync w path = Throw err → code err ≠ Some "ENOENT" →
  isExistingFile w path = Throw err.
Proof.
  intros Hstat Hcode. unfold isExistingFile.
  by rewrite Hstat, bool_decide_eq_false_2.
Qed.

(** The search through the candidates after [pre], all of which are no
    regular files, is the search through the rest. *)
Lemma search_skips directory (pre rest : list string) :
  (∀ earlier, earlier ∈ pre → no_regular_file w (Path.join directory earlier)) →
  array_find (isExistingFile w) (map (Path.join directory) (pre ++ rest))
  = array_find (isExistingFile w) (map (Path.join directory) rest).
Proof.
  intros Hpre. rewrite map_app. apply array_find_skip.
  intros path (earlier & -> & Hin)%list_elem_of_fmap.
  by apply isExistingFile_no_regular, Hpre.
Qed.

(** A path the discovery returns is the path of a candidate at which the
    test for a file succeeded. *)
Lemma getFilenameForDirectory_some directory path :
  getFilenameForDirectory w directory = Ok (Some path) →
  ∃ filename, filename ∈ CONFIG_FILES ∧ path = Path.join directory filename
              ∧ isExistingFile w path = Ok true.
Proof.
  unfold getFilenameForDirectory.
  destruct (array_find _ _) as [[found|]|e] eqn:E; simpl; [| done | done].
  case_bool_decide; [done |]. intros [= ->].
  apply array_find_some in E as [(filename & -> & Hin)%list_elem_of_fmap Hpred].
  by exists filename.
Qed.

End Discovery.

(** Without a regular file under any candidate name the discovery finds
    nothing and the configuration is the default one. *)
Lemma getConfig_nothing_found (lib : Parsers) (w : World) (directory : string) :
  (∀ filename, filename ∈ CONFIG_FILES →
     no_regular_file w (Path.join directory filename)) →
  getFilenameForDirectory w directory = Ok None
  ∧ getConfig lib w directory = Ok DEFAULT_CONFIG.
Proof.
  intros Hnone.
  assert (getFilenameForDirectory w directory = Ok None) as Hfound.
  { unfold getFilenameForDirectory. rewrite array_find_none; [done |].
    intros path (filename & -> & Hin)%list_elem_of_fmap.
    by apply isExistingFile_no_regular, Hnone. }
  split; [done |]. unfold getConfig. by rewrite Hfound.
Qed.

(** C1: for a directory in which none of the five candidate names exists,
    [getConfig] returns the default configuration, which is
    [{required: [], excluded: [], dotenv: ".env", translations}] with the
    five default messages, and raises no error. *)
Theorem getConfig_without_candidate (lib : Parsers) (w : World) (directory : string) :
  (∀ filename, filename ∈ CONFIG_FILES → missing w (Path.join directory filename)) →
  getConfig lib w directory = Ok DEFAULT_CONFIG
  ∧ DEFAULT_CONFIG
    = JObj (<["required" := JArr []]>
           (<["excluded" := JArr []]>
           (<["dotenv" := JStr ".env"]>
           (<["translations" := JObj DEFAULT_TRANSLATIONS]> ∅))))
  ∧ dom DEFAULT_TRANSLATIONS
    = {[ "missingRequired"; "foundExcluded"; "errorStatement"; "errorQuestion"; "yes" ]}.
Proof.
  intros Hnone. split; [| split; [done | by vm_compute]].
  apply getConfig_nothing_found. intros filename Hin. left. by apply Hnone.
Qed.

(** C2: the candidates are tried in the order [.clean-env.js],
    [.clean-env.yaml], [.clean-env.yml], [.clean-env.json], [package.json],
    and the first of them that is a regular file in the directory is the
    one selected, whatever else is on the disk: a candidate with no
    regular file before it is selected, and a selected path is the path of
    such a candidate. *)
Theorem discovery_selects_first_existing (w : World) (directory : string) :
  CONFIG_FILES
  = [".clean-env.js"; ".clean-env.yaml"; ".clean-env.yml"; ".clean-env.json"; "package.json"]
  ∧ (∀ pre filename post,
       CONFIG_FILES = pre ++ filename :: post →
       (∀ earlier, earlier ∈ pre → no_regular_file w (Path.join directory earlier)) →
       regular_file w (Path.join directory filename) →
       getFilenameForDirectory w directory = Ok (Some (Path.join directory filename)))
  ∧ (∀ path,
       getFilenameForDirectory w directory = Ok (Some path) →
       ∃ pre filename post,
         CONFIG_FILES = pre ++ filename :: post
         ∧ path = Path.join directory filename
         ∧ regular_file w path
         ∧ ∀ earlier, earlier ∈ pre → no_regular_file w (Path.join directory earlier)).
Proof.
  split; [done |]. split.
  - intros pre filename post Hsplit Hpre Hfile.
    assert (filename ∈ CONFIG_FILES) as Hin by (rewrite Hsplit; set_solver).
    unfold getFilenameForDirectory. rewrite Hsplit, search_skips by done.
    simpl. rewrite isExistingFile_regular by done. simpl.
    rewrite bool_decide_eq_false_2; [done |].
    by apply PathFacts.join_not_empty, candidate_entry_name.
  - intros path. unfold getFilenameForDirectory.
    destruct (array_find _ _) as [[found|]|e] eqn:E; simpl; [| done | done].
    case_bool_decide; [done |]. intros [= ->].
    apply array_find_some_split in E as (pre' & post' & Hsplit & Hfile & Hpre).
    apply fmap_app_inv in Hsplit as (pre & rest & -> & Hrest & Hsplit).
    symmetry in Hrest.
    apply fmap_cons_inv in Hrest as (filename & post & -> & -> & ->).
    exists pre, filename, post. split; [done |]. split; [done |].
    split; [by apply isExistingFile_true_inv |].
    intros earlier Hin. apply isExistingFile_false_inv, Hpre.
    apply list_elem_of_fmap. by exists earlier.
Qed.

(** C10: a candidate path at which there is something that is no regular
    file counts as not existing, and the search goes on with the
    candidates after it; a failure of [stat] with a code other than
    [ENOENT], at a candidate the search reaches, is the error of the
    discovery and of [getConfig]. *)
Theorem discovery_skips_non_files_and_raises_stat_errors
    (lib : Parsers) (w : World) (directory : string) (pre post : list string)
    (filename : string) :
  CONFIG_FILES = pre ++ filename :: post →
  (∀ earlier, earlier ∈ pre → no_regular_file w (Path.join directory earlier)) →
  (∀ stats, statSync w (Path.join directory filename) = Ok stats → isFile stats = false →
     isExistingFile w (Path.join directory filename) = Ok false
     ∧ array_find (isExistingFile w) (map (Path.join directory) CONFIG_FILES)
       = array_find (isExistingFile w) (map (Path.join directory) post))
  ∧ (∀ err, statSync w (Path.join directory filename) = Throw err →
       code err ≠ Some "ENOENT" →
       getFilenameForDirectory w directory = Throw err
       ∧ getConfig lib w directory = Throw err).
Proof.
  intros Hsplit Hpre. split.
  - intros stats Hstat Hfile.
    assert (no_regular_file w (Path.join directory filename)) as Hno
      by (right; by exists stats).
    split; [by apply isExistingFile_no_regular |].
    rewrite Hsplit. change (filename :: post) with ([filename] ++ post).
    rewrite app_assoc. apply search_skips.
    intros earlier [?| ->%list_elem_of_singleton]%elem_of_app; auto.
  - intros err Hstat Hcode.
    assert (getFilenameForDirectory w directory = Throw err) as Hthrow.
    { unfold getFilenameForDirectory. rewrite Hsplit, search_skips by done.
      simpl. by rewrite (isExistingFile_error w _ err). }
    split; [done |]. unfold getConfig. by rewrite Hthrow.
Qed.

End ConfigFacts.

(** ** Loading and merging *)

Module LoadFacts.
Import ConfigFile.

Lemma cannot_read_contains_path filePath e : contains (cannot_read filePath e) filePath.
Proof. by exists "Cannot read config file: ", (LF +:+ "Error: " +:+ message e). Qed.

Lemma cannot_read_contains_message filePath e :
  contains (cannot_read filePath e) (message e).
Proof.
  exists ("Cannot read config file: " +:+ filePath +:+ LF +:+ "Error: "), "".
  unfold cannot_read. by rewrite append_empty_r, !append_assoc.
Qed.

Lemma extname_manifest path :
  Path.basename path = "package.json" → Path.extname path = ".json".
Proof. intros Hname. unfold Path.extname. by rewrite Hname. Qed.

Section Loading.
Context (lib : Parsers) (w : World).

Lemma loadConfigFile_script path :
  Path.extname path = ".js" → loadConfigFile lib w path = loadJSConfigFile w path.
Proof. intros Hext. unfold loadConfigFile. by rewrite Hext. Qed.

Lemma loadConfigFile_yaml path :
  Path.extname path = ".yaml" ∨ Path.extname path = ".yml" →
  loadConfigFile lib w path = loadYAMLConfigFile lib w path.
Proof. intros [Hext|Hext]; unfold loadConfigFile; by rewrite Hext. Qed.

Lemma loadConfigFile_json path :
  Path.extname path = ".json" → Path.basename path ≠ "package.json" →
  loadConfigFile lib w path = loadJSONConfigFile lib w path.
Proof.
  intros Hext Hname. unfold loadConfigFile. rewrite Hext. simpl.
  by rewrite bool_decide_eq_false_2.
Qed.

Lemma loadConfigFile_manifest path :
  Path.basename path = "package.json" →
  loadConfigFile lib w path = loadPackageJSONConfigFile lib w path.
Proof.
  intros Hname. unfold loadConfigFile.
  rewrite (extname_manifest path Hname), Hname. simpl.
  destruct (loadPackageJSONConfigFile lib w path) as [[]|]; done.
Qed.

Lemma readFile_throw path e :
  readFileSync w path = Throw e → readFile w path = Throw e.
Proof. intros Hread. unfold readFile. by rewrite Hread. Qed.

(** Whatever fails inside [loadJSONConfigFile] leaves it with the path
    and the text of the failure in the message. *)
Lemma loadJSONConfigFile_throw path e :
  readFile w path = Throw e
  ∨ (∃ text, readFile w path = Ok text ∧ JSON_parse lib (stripComments lib text) = Throw e) →
  ∃ err, loadJSONConfigFile lib w path = Throw err
         ∧ message err = cannot_read path e.
Proof.
  unfold loadJSONConfigFile.
  intros [->|(text & -> & Hparse)]; simpl; [| rewrite Hparse]; eauto.
Qed.

Lemma loadYAMLConfigFile_throw path e :
  readFile w path = Throw e
  ∨ (∃ text, readFile w path = Ok text ∧ yaml_safeLoad lib text = Throw e) →
  ∃ err, loadYAMLConfigFile lib w path = Throw err
         ∧ message err = cannot_read path e.
Proof.
  unfold loadYAMLConfigFile.
  intros [->|(text & -> & Hparse)]; simpl; [| rewrite Hparse]; eauto.
Qed.

Lemma loadPackageJSONConfigFile_throw path e :
  loadJSONConfigFile lib w path = Throw e →
  ∃ err, loadPackageJSONConfigFile lib w path = Throw err
         ∧ message err = cannot_read path e.
Proof. intros Hload. unfold loadPackageJSONConfigFile. rewrite Hload. simpl. eauto. Qed.

(** The path and the text of the first failure are in the message of what
    a loader throws, whichever loader the name of the file selects. *)
Lemma loadConfigFile_throw directory filename e :
  filename ∈ CONFIG_FILES →
  read_or_parse_fails lib w (Path.join directory filename) e →
  ∃ err, loadConfigFile lib w (Path.join directory filename) = Throw err
         ∧ contains (message err) (Path.join directory filename)
         ∧ contains (message err) (message e).
Proof.
  intros Hin Hfail.
  pose proof (ConfigFacts.candidate_entry_name filename Hin) as Hname.
  pose proof (PathFacts.extname_join directory filename Hname) as Hext.
  pose proof (PathFacts.basename_join directory filename Hname) as Hbase.
  set (path := Path.join directory filename) in *.
  assert (∀ err, message err = cannot_read path e →
            contains (message err) path ∧ contains (message err) (message e)) as Hwrapped.
  { intros err ->.
    split; [apply cannot_read_contains_path | apply cannot_read_contains_message]. }
  assert (∀ err inner, message inner = cannot_read path e →
            message err = cannot_read path inner →
            contains (message err) path ∧ contains (message err) (message e)) as Hnested.
  { intros err inner Hinner ->. split; [apply cannot_read_contains_path |].
    eapply contains_trans; [apply cannot_read_contains_message |].
    rewrite Hinner. apply cannot_read_contains_message. }
  assert (∀ cause : readFile w path = Throw e
            ∨ (∃ text, readFile w path = Ok text
                       ∧ JSON_parse lib (stripComments lib text) = Throw e),
            Path.extname filename = ".json" →
            ∃ err, loadConfigFile lib w path = Throw err
                   ∧ contains (message err) path ∧ contains (message err) (message e))
    as Hjson.
  { intros cause Hjson.
    destruct (loadJSONConfigFile_throw path e cause) as (inner & Hload & Hmsg).
    destruct (decide (filename = "package.json")) as [Heq|Hne].
    - rewrite loadConfigFile_manifest by congruence.
      destruct (loadPackageJSONConfigFile_throw path inner Hload) as (err & -> & Herr).
      exists err. split; [done |]. by apply (Hnested err inner).
    - rewrite loadConfigFile_json by congruence.
      exists inner. split; [done |]. by apply Hwrapped. }
  assert (∀ cause : readFile w path = Throw e
            ∨ (∃ text, readFile w path = Ok text ∧ yaml_safeLoad lib text = Throw e),
            Path.extname filename = ".yaml" ∨ Path.extname filename = ".yml" →
            ∃ err, loadConfigFile lib w path = Throw err
                   ∧ contains (message err) path ∧ contains (message err) (message e))
    as Hyaml.
  { intros cause Hyaml.
    rewrite loadConfigFile_yaml by (by rewrite Hext).
    destruct (loadYAMLConfigFile_throw path e cause) as (err & -> & Hmsg).
    exists err. split; [done |]. by apply Hwrapped. }
  destruct Hfail as [Hjs Himport|Hjs Hread|text Hy Hread Hparse|text Hj Hread Hparse].
  - rewrite loadConfigFile_script by done.
    unfold loadJSConfigFile. rewrite Himport. simpl.
    eexists. split; [done |]. by apply Hwrapped.
  - apply readFile_throw in Hread.
    destruct (ConfigFacts.candidate_cases filename Hin) as [->|[->|[->|[->| ->]]]].
    + by rewrite Hext in Hjs.
    + apply Hyaml; auto.
    + apply Hyaml; auto.
    + apply Hjson; auto.
    + apply Hjson; auto.
  - apply Hyaml; [eauto | by rewrite <- Hext].
  - apply Hjson; [eauto | by rewrite <- Hext].
Qed.

(** A file that holds a truthy configuration loads as that configuration. *)
Lemma loadConfigFile_holds path config :
  file_holds lib w path config → truthy config = true →
  loadConfigFile lib w path = Ok config.
Proof.
  intros Hholds Htruthy.
  destruct Hholds as [Hext Himport|text Hext Hread Hparse|text Hext Hname Hread Hparse
                     |text manifest Hname Hread Hparse Hfield].
  - rewrite loadConfigFile_script by done. unfold loadJSConfigFile. by rewrite Himport.
  - rewrite loadConfigFile_yaml by done. unfold loadYAMLConfigFile.
    rewrite Hread. simpl. rewrite Hparse. simpl. unfold js_or. by rewrite Htruthy.
  - rewrite loadConfigFile_json by done. unfold loadJSONConfigFile.
    rewrite Hread. simpl. by rewrite Hparse.
  - rewrite loadConfigFile_manifest by done.
    unfold loadPackageJSONConfigFile, loadJSONConfigFile.
    rewrite Hread. simpl. rewrite Hparse. simpl. rewrite Hfield. simpl.
    unfold js_or. by rewrite Htruthy.
Qed.

End Loading.

(** C3: when reading or parsing the selected file fails, [getConfig]
    throws; the message of what it throws has the path of the file and
    the text of the failure in it. No other candidate is tried and the
    defaults are not returned. *)
Theorem failed_load_is_fatal (lib : Parsers) (w : World) (directory filePath : string)
    (e : JSError) :
  getFilenameForDirectory w directory = Ok (Some filePath) →
  read_or_parse_fails lib w filePath e →
  ∃ err, getConfig lib w directory = Throw err
         ∧ contains (message err) filePath
         ∧ contains (message err) (message e).
Proof.
  intros Hselected Hfail.
  destruct (ConfigFacts.getFilenameForDirectory_some w directory filePath Hselected)
    as (filename & Hin & -> & _).
  destruct (loadConfigFile_throw lib w directory filename e Hin Hfail)
    as (err & Hload & Hpath & Hmsg).
  exists err. split; [| done].
  unfold getConfig. rewrite Hselected. simpl. by rewrite Hload.
Qed.

(** Merging an object into an object: a key of the source has the
    source's value, merged with the target's where both can be merged; any
    other key has the target's value. *)
Lemma deepmerge_lookup (tfields sfields : gmap string JSValue) (key : string) :
  ∃ merged, Deepmerge.deepmerge (JObj tfields) (JObj sfields) = JObj merged
    ∧ merged !! key =
        match sfields !! key with
        | Some s =>
            Some (if Deepmerge.isMergeableObject s
                     && truthy (default JUndefined (tfields !! key))
                  then Deepmerge.deepmerge (default JUndefined (tfields !! key)) s
                  else s)
        | None => tfields !! key
        end.
Proof.
  eexists. split; [reflexivity |].
  rewrite lookup_union, map_lookup_imap.
  destruct (sfields !! key) as [s|]; simpl.
  - by destruct (tfields !! key).
  - by rewrite (left_id None _).
Qed.

Lemma map_imap_single {A B} (f : string → A → option B) (key : string) (x : A) (y : B) :
  f key x = Some y → map_imap f ({[ key := x ]} : gmap string A) = {[ key := y ]}.
Proof.
  intros Hf. rewrite <- !insert_empty.
  rewrite (map_imap_insert_Some f key x ∅ y) by done. by rewrite map_imap_empty.
Qed.

Lemma merge_empty_object : Deepmerge.merge DEFAULT_CONFIG (JObj ∅) = Ok DEFAULT_CONFIG.
Proof. reflexivity. Qed.

Lemma merge_required (name : string) :
  Deepmerge.merge DEFAULT_CONFIG (JObj {[ "required" := JArr [JStr name] ]})
  = Ok (JObj (<["required" := JArr [JStr name]]> DEFAULT_FIELDS)).
Proof.
  unfold Deepmerge.merge, DEFAULT_CONFIG. simpl.
  erewrite map_imap_single by done. by rewrite insert_union_singleton_l.
Qed.

Lemma merge_translation (key text : string) :
  Deepmerge.merge DEFAULT_CONFIG
    (JObj {[ "translations" := JObj {[ key := JStr text ]} ]})
  = Ok (JObj (<["translations" := JObj (<[key := JStr text]> DEFAULT_TRANSLATIONS)]>
                DEFAULT_FIELDS)).
Proof.
  unfold Deepmerge.merge, DEFAULT_CONFIG. simpl.
  erewrite (map_imap_single _ "translations") by done. simpl.
  erewrite (map_imap_single _ key) by done.
  by rewrite !insert_union_singleton_l.
Qed.

(** C6: a configuration that overrides one message leaves the other
    messages, and every other field, at their defaults; a configuration
    that has only [required: [X]], in whichever of the five formats, gives
    [required = [X]] and the defaults in every other field. *)
Theorem merge_keeps_other_defaults (lib : Parsers) (w : World)
    (directory filePath : string) :
  getFilenameForDirectory w directory = Ok (Some filePath) →
  (∀ key text,
     file_holds lib w filePath (JObj {[ "translations" := JObj {[ key := JStr text ]} ]}) →
     ∃ translations,
       getConfig lib w directory
       = Ok (JObj (<["translations" := JObj translations]> DEFAULT_FIELDS))
       ∧ translations !! key = Some (JStr text)
       ∧ ∀ other, other ≠ key → translations !! other = DEFAULT_TRANSLATIONS !! other)
  ∧ (∀ name,
       file_holds lib w filePath (JObj {[ "required" := JArr [JStr name] ]}) →
       getConfig lib w directory
       = Ok (JObj (<["required" := JArr [JStr name]]> DEFAULT_FIELDS))).
Proof.
  intros Hselected. split.
  - intros key text Hholds.
    exists (<[key := JStr text]> DEFAULT_TRANSLATIONS). split; [| split].
    + unfold getConfig. rewrite Hselected. simpl.
      rewrite (loadConfigFile_holds lib w filePath _ Hholds) by done. simpl.
      apply merge_translation.
    + apply lookup_insert_eq.
    + intros other Hother. by apply lookup_insert_ne.
  - intros name Hholds.
    unfold getConfig. rewrite Hselected. simpl.
    rewrite (loadConfigFile_holds lib w filePath _ Hholds) by done. simpl.
    apply merge_required.
Qed.

Lemma loadYAMLConfigFile_truthy (lib : Parsers) (w : World) (path : string) (v : JSValue) :
  loadYAMLConfigFile lib w path = Ok v → truthy v = true.
Proof.
  unfold loadYAMLConfigFile.
  destruct (readFile w path) as [text|]; simpl; [| done].
  destruct (yaml_safeLoad lib text) as [doc|]; simpl; [| done].
  intros [= <-]. unfold js_or. by destruct (truthy doc) eqn:E.
Qed.

(** C7: the YAML loader never returns [null] or [undefined]; a YAML file
    whose document is empty loads as the empty object, and [getConfig]
    then returns what it returns for a directory without any
    configuration file. *)
Theorem empty_yaml_is_no_configuration (lib : Parsers) (w : World)
    (directory filePath text : string) (doc : JSValue) :
  getFilenameForDirectory w directory = Ok (Some filePath) →
  Path.extname filePath = ".yaml" ∨ Path.extname filePath = ".yml" →
  readFile w filePath = Ok text →
  yaml_safeLoad lib text = Ok doc →
  nullish doc = true →
  (∀ path v, loadYAMLConfigFile lib w path = Ok v → nullish v = false)
  ∧ loadYAMLConfigFile lib w filePath = Ok (JObj ∅)
  ∧ getConfig lib w directory = Ok DEFAULT_CONFIG
  ∧ ∀ w' directory',
      (∀ filename, filename ∈ CONFIG_FILES → missing w' (Path.join directory' filename)) →
      getConfig lib w directory = getConfig lib w' directory'.
Proof.
  intros Hselected Hext Hread Hparse Hempty.
  assert (loadYAMLConfigFile lib w filePath = Ok (JObj ∅)) as Hload.
  { unfold loadYAMLConfigFile. rewrite Hread. simpl. rewrite Hparse. simpl.
    by destruct doc. }
  assert (getConfig lib w directory = Ok DEFAULT_CONFIG) as Hconfig.
  { unfold getConfig. rewrite Hselected. simpl.
    rewrite loadConfigFile_yaml, Hload by done. simpl. apply merge_empty_object. }
  split; [| split; [done | split; [done |]]].
  - intros path v Hv. apply loadYAMLConfigFile_truthy in Hv. by destruct v.
  - intros w' directory' Hnone.
    rewrite Hconfig. symmetry. apply ConfigFacts.getConfig_nothing_found.
    intros filename Hin. left. by apply Hnone.
Qed.

End LoadFacts.

(** ** The manifest *)

Module ManifestFacts.
Import ConfigFile.

(** C8, as the program has it: the manifest goes through the loader of
    JSON files, which strips comments before it parses; the value under
    [clean-env] is the configuration; without that key the loader returns
    [null], which is no error and not the empty object, and [getConfig]
    returns the defaults. *)
Theorem manifest_field_or_defaults (lib : Parsers) (w : World)
    (directory filePath text : string) (manifest : gmap string JSValue) :
  getFilenameForDirectory w directory = Ok (Some filePath) →
  Path.basename filePath = "package.json" →
  readFile w filePath = Ok text →
  JSON_parse lib (stripComments lib text) = Ok (JObj manifest) →
  loadPackageJSONConfigFile lib w filePath
  = Ok (js_or (default JUndefined (manifest !! "clean-env")) JNull)
  ∧ (manifest !! "clean-env" = None →
       loadConfigFile lib w filePath = Ok JNull
       ∧ getConfig lib w directory = Ok DEFAULT_CONFIG)
  ∧ (manifest !! "clean-env" = Some (JObj ∅) →
       loadConfigFile lib w filePath = Ok (JObj ∅)).
Proof.
  intros Hselected Hname Hread Hparse.
  assert (loadPackageJSONConfigFile lib w filePath
          = Ok (js_or (default JUndefined (manifest !! "clean-env")) JNull)) as Hload.
  { unfold loadPackageJSONConfigFile, loadJSONConfigFile.
    rewrite Hread. simpl. by rewrite Hparse. }
  split; [done |].
  rewrite (LoadFacts.loadConfigFile_manifest lib w filePath Hname), Hload.
  split; intros Hfield; rewrite Hfield; [| done].
  split; [done |]. unfold getConfig. rewrite Hselected. simpl.
  rewrite (LoadFacts.loadConfigFile_manifest lib w filePath Hname), Hload.
  by rewrite Hfield.
Qed.

(** C8 as stated fails: a manifest with a comment in it is not JSON, and
    the program reads the configuration from it all the same. *)
Lemma manifest_with_comment_is_accepted :
  readFileSync (Examples.with_manifest Examples.commented_manifest_text)
    "/srv/app/package.json" = Ok Examples.commented_manifest_text
  ∧ Host.json_parse Examples.commented_manifest_text = Throw Host.SyntaxError
  ∧ getConfig Host.parsers (Examples.with_manifest Examples.commented_manifest_text)
      Examples.project
    = Ok (JObj (<["required" := JArr [JStr "API_KEY"]]> DEFAULT_FIELDS)).
Proof. repeat split; vm_compute; reflexivity. Qed.

End ManifestFacts.

(** ** The check of the environment *)

Module CleanEnvFacts.
Import CleanEnv.

Lemma process_env_own (skips : string → bool) (env : gmap string string) (name : string) :
  own_name skips name →
  process_env skips env (JStr name) = from_option EnvString EnvUndefined (env !! name).
Proof.
  intros [Hskip Hproto]. unfold process_env. simpl. rewrite Hskip.
  destruct (env !! name); [done |]. by rewrite bool_decide_eq_false_2.
Qed.

Lemma missingRequired_names (skips : string → bool) (required : list string)
    (env : gmap string string) :
  (∀ name, name ∈ required → own_name skips name) →
  missingRequired skips (JStr <$> required) env
  = (λ name, NameRow (JStr name)) <$> filter (λ name, env !! name = None) required.
Proof.
  unfold missingRequired.
  induction required as [|name required IH]; intros Hown; [done |].
  rewrite fmap_cons, !filter_cons, process_env_own by (apply Hown; left).
  assert (∀ n, n ∈ required → own_name skips n) as Hrest
    by (intros n Hn; apply Hown; by right).
  destruct (env !! name) as [value|] eqn:E; simpl.
  - by apply IH.
  - f_equal. by apply IH.
Qed.

Lemma foundExcluded_names (skips : string → bool) (excluded : list string)
    (env : gmap string string) :
  (∀ name, name ∈ excluded → own_name skips name) →
  foundExcluded skips (JStr <$> excluded) env
  = omap (λ name, value ← env !! name;
                  Some (NameValueRow (JStr name) (EnvString value)))
         excluded.
Proof.
  unfold foundExcluded.
  induction excluded as [|name excluded IH]; intros Hown; [done |].
  rewrite fmap_cons, filter_cons, process_env_own by (apply Hown; left). simpl.
  assert (∀ n, n ∈ excluded → own_name skips n) as Hrest
    by (intros n Hn; apply Hown; by right).
  destruct (env !! name) as [value|] eqn:E; simpl.
  - rewrite process_env_own, E by (apply Hown; left). simpl. f_equal. by apply IH.
  - by apply IH.
Qed.



(** The two examples of the specification. *)
Example report_of_missing_B :
  missingRequired Host.is_array_index [JStr "A"; JStr "B"] {[ "A" := "1" ]}
  = [NameRow (JStr "B")]
  ∧ foundExcluded Host.is_array_index [JStr "C"] {[ "A" := "1" ]} = [].
Proof. split; by vm_compute. Qed.

Example report_of_found_C :
  foundExcluded Host.is_array_index [JStr "C"] {[ "C" := "secret" ]}
  = [NameValueRow (JStr "C") (EnvString "secret")].
Proof. by vm_compute. Qed.

Lemma strict_equal_string_spec (answer : string) (v : JSValue) :
  strict_equal_string answer v = true ↔ v = JStr answer.
Proof.
  destruct v; simpl; try (split; [done | discriminate]).
  rewrite bool_decide_eq_true. split; [by intros -> | by intros [= ->]].
Qed.

Section Script.
Context (fields translations : gmap string JSValue).
Hypothesis has_translations : fields !! "translations" = Some (JObj translations).

Lemma translation_value key evs :
  translation (JObj fields) key evs = (evs, Ok (default JUndefined (translations !! key))).
Proof.
  unfold translation, mbind, Script_bind, eval. simpl. by rewrite has_translations.
Qed.

Lemma report_nothing heading safe evs :
  report (JObj fields) heading [] safe evs = (evs, Ok safe).
Proof. reflexivity. Qed.

Lemma report_rows heading rows safe evs :
  rows ≠ [] →
  report (JObj fields) heading rows safe evs
  = (evs ++ [ConsoleLog None;
             ConsoleLog (Some (default JUndefined (translations !! heading)));
             ConsoleTable rows],
     Ok false).
Proof.
  intros Hrows. unfold report.
  rewrite bool_decide_eq_true_2 by (destruct rows; [done | simpl; lia]).
  unfold mbind, Script_bind, emit. cbv beta iota.
  rewrite translation_value. cbv beta iota.
  by rewrite <- !app_assoc.
Qed.

(** What [check] does: two lines, the question, and the status: after
    the comparison of the answer with [translations.yes], or 0 when no
    answer comes. *)
Lemma check_asks stdin evs :
  check (JObj fields) stdin evs
  = (evs ++ [ConsoleLog None;
             ConsoleLog (Some (default JUndefined (translations !! "errorStatement")));
             Question (to_string (default JUndefined (translations !! "errorQuestion"))
                       +:+ " ")],
     Ok (match stdin with
         | Some answer =>
             if strict_equal_string answer (default JUndefined (translations !! "yes"))
             then 0%Z else 1%Z
         | None => 0%Z
         end)).
Proof.
  unfold check, mbind, Script_bind, emit. cbv beta iota.
  do 2 (rewrite translation_value; cbv beta iota).
  destruct stdin as [answer|].
  - rewrite translation_value. cbv beta iota.
    rewrite <- !app_assoc. simpl.
    by destruct (strict_equal_string _ _).
  - by rewrite <- !app_assoc.
Qed.

End Script.

(** The script up to the two lists, for a configuration that has the
    three fields it reads as arrays and an object. *)
Lemma main_after_lists (lib : Parsers) (w : World) (rootDir : string)
    (stdin : option string)
    (env0 env : gmap string string) (fields : gmap string JSValue)
    (required excluded : list JSValue) :
  ConfigFile.getConfig lib w rootDir = Ok (JObj fields) →
  fields !! "required" = Some (JArr required) →
  fields !! "excluded" = Some (JArr excluded) →
  (let dotenv := default JUndefined (fields !! "dotenv") in
   if truthy dotenv then dotenv_config w rootDir dotenv env0 else Ok env0) = Ok env →
  main lib w rootDir env0 stdin []
  = (safe ← report (JObj fields) "missingRequired"
              (missingRequired (env_skips w) required env) true;
     safe ← report (JObj fields) "foundExcluded"
              (foundExcluded (env_skips w) excluded env) safe;
     if negb safe then check (JObj fields) stdin else mret 0%Z) [].
Proof.
  intros Hconfig Hrequired Hexcluded Henv.
  unfold main, mbind, Script_bind, eval. rewrite Hconfig. simpl in *.
  destruct (truthy _); [rewrite Henv | injection Henv as ->];
    simpl; by rewrite Hrequired, Hexcluded.
Qed.

(** The whole run for a configuration of the expected shape. *)
Lemma run_of_script (lib : Parsers) (w : World) (rootDir : string)
    (stdin : option string)
    (env0 env : gmap string string) (fields translations : gmap string JSValue)
    (required excluded : list JSValue) :
  ConfigFile.getConfig lib w rootDir = Ok (JObj fields) →
  fields !! "required" = Some (JArr required) →
  fields !! "excluded" = Some (JArr excluded) →
  fields !! "translations" = Some (JObj translations) →
  (let dotenv := default JUndefined (fields !! "dotenv") in
   if truthy dotenv then dotenv_config w rootDir dotenv env0 else Ok env0) = Ok env →
  run (main lib w rootDir env0 stdin)
  = match missingRequired (env_skips w) required env,
          foundExcluded (env_skips w) excluded env with
    | [], [] => {| events := []; ending := Exit 0 |}
    | missing, found =>
        {| events :=
             table_section (default JUndefined (translations !! "missingRequired")) missing
             ++ table_section (default JUndefined (translations !! "foundExcluded")) found
             ++ [ConsoleLog None;
                 ConsoleLog (Some (default JUndefined (translations !! "errorStatement")));
                 Question (to_string (default JUndefined (translations !! "errorQuestion"))
                           +:+ " ")];
           ending :=
             Exit (match stdin with
                   | Some answer =>
                       if strict_equal_string answer
                            (default JUndefined (translations !! "yes"))
                       then 0%Z else 1%Z
                   | None => 0%Z
                   end) |}
    end.
Proof.
  intros Hconfig Hrequired Hexcluded Hmessages Henv. unfold run.
  rewrite (main_after_lists lib w rootDir stdin env0 env fields required excluded)
    by done.
  unfold mbind, Script_bind.
  destruct (missingRequired (env_skips w) required env) as [|row rows];
    destruct (foundExcluded (env_skips w) excluded env) as [|row' rows'].
  - by rewrite !report_nothing.
  - rewrite report_nothing.
    rewrite (report_rows fields translations Hmessages) by done.
    simpl. by rewrite (check_asks fields translations Hmessages).
  - rewrite (report_rows fields translations Hmessages) by done.
    rewrite report_nothing. simpl.
    by rewrite (check_asks fields translations Hmessages).
  - rewrite (report_rows fields translations Hmessages) by done.
    rewrite (report_rows fields translations Hmessages) by done.
    simpl. rewrite (check_asks fields translations Hmessages).
    simpl. by rewrite <- ?app_assoc.
Qed.



(** C9, as the program has it: the answer is compared as [readline]
    delivers it, without trimming, by strict equality with
    [translations.yes]; the status is 0 when they are equal and 1
    otherwise, also for an answer that differs from the affirmative
    string by surrounding white space only. *)
Theorem answer_is_compared_as_read (fields translations : gmap string JSValue)
    (answer : string) :
  fields !! "translations" = Some (JObj translations) →
  let yes := default JUndefined (translations !! "yes") in
  (yes = JStr answer → ending (run (check (JObj fields) (Some answer))) = Exit 0)
  ∧ (yes ≠ JStr answer → ending (run (check (JObj fields) (Some answer))) = Exit 1)
  ∧ (∀ affirmative, yes = JStr affirmative → answer ≠ affirmative →
       Trim.trim answer = affirmative →
       ending (run (check (JObj fields) (Some answer))) = Exit 1).
Proof.
  intros Htranslations yes. unfold run.
  rewrite (check_asks fields translations Htranslations). fold yes.
  assert (yes ≠ JStr answer →
          (if strict_equal_string answer yes then 0%Z else 1%Z) = 1%Z) as Hdiffer.
  { intros Hno. destruct (strict_equal_string answer yes) eqn:E; [| done].
    by apply strict_equal_string_spec in E. }
  split; [| split].
  - intros Hyes%strict_equal_string_spec. by rewrite Hyes.
  - intros Hno. by rewrite Hdiffer.
  - intros affirmative Hyes Hne _. rewrite Hdiffer; [done |]. congruence.
Qed.

(** C9 as stated fails: the answer [" y "] trims to the affirmative ["y"],
    and the process that asked ends with status 1. *)
Lemma padded_answer_is_refused :
  Trim.trim " y " = "y"
  ∧ missingRequired Host.is_array_index [JStr "API_KEY"] ∅ ≠ []
  ∧ ending (run (main Host.parsers (Examples.with_manifest Examples.manifest_text)
                   Examples.project ∅ (Some "y"))) = Exit 0
  ∧ ending (run (main Host.parsers (Examples.with_manifest Examples.manifest_text)
                   Examples.project ∅ (Some " y "))) = Exit 1.
Proof. repeat split; [done | by vm_compute..]. Qed.

End CleanEnvFacts.

(** ** The theorems at the example projects *)

Module Instances.
Import ConfigFile CleanEnv Examples.

(** C1 at the project without any file. *)
Lemma getConfig_without_candidate_bare :
  getConfig Host.parsers bare project = Ok DEFAULT_CONFIG.
Proof.
  apply (proj1 (ConfigFacts.getConfig_without_candidate Host.parsers bare project
                  ltac:(intros filename _; eexists;
                        split; [simpl; by rewrite lookup_empty | reflexivity]))).
Defined.

(** C2 at the project with a directory under the script's name, a YAML
    file and a manifest: the YAML file is selected. *)
Lemma discovery_selects_first_existing_mixed :
  getFilenameForDirectory mixed project = Ok (Some "/srv/app/.clean-env.yml").
Proof.
  apply (proj1 (proj2 (ConfigFacts.discovery_selects_first_existing mixed project))
           [".clean-env.js"; ".clean-env.yaml"] ".clean-env.yml"
           [".clean-env.json"; "package.json"]).
  - reflexivity.
  - intros earlier Hin. rewrite !elem_of_cons, elem_of_nil in Hin.
    destruct Hin as [->|[->|[]]].
    + right. eexists. split; vm_compute; reflexivity.
    + left. eexists. split; vm_compute; reflexivity.
  - eexists. split; vm_compute; reflexivity.
Defined.

(** C3 at the project whose JSON file breaks off: the manifest next to it
    is not used. *)
Lemma failed_load_is_fatal_broken :
  ∃ err, getConfig Host.parsers broken project = Throw err
         ∧ contains (message err) "/srv/app/.clean-env.json"
         ∧ contains (message err) (message Host.SyntaxError).
Proof.
  apply (LoadFacts.failed_load_is_fatal Host.parsers broken project
           "/srv/app/.clean-env.json" Host.SyntaxError).
  - vm_compute. reflexivity.
  - apply (json_fails _ _ _ _ broken_json_text); vm_compute; reflexivity.
Defined.



(** C6 at the manifest that has only [required]. *)
Lemma merge_keeps_other_defaults_manifest :
  getConfig Host.parsers (with_manifest manifest_text) project
  = Ok (JObj (<["required" := JArr [JStr "API_KEY"]]> DEFAULT_FIELDS)).
Proof.
  apply (proj2 (LoadFacts.merge_keeps_other_defaults Host.parsers
                  (with_manifest manifest_text) project "/srv/app/package.json"
                  ltac:(vm_compute; reflexivity))).
  apply (manifest_holds _ _ _ _ manifest_text
           {[ "clean-env" := JObj {[ "required" := JArr [JStr "API_KEY"] ]} ]});
    vm_compute; reflexivity.
Defined.

(** C7 at the project whose only configuration is an empty YAML file. *)
Lemma empty_yaml_is_no_configuration_example :
  getConfig Host.parsers with_empty_yaml project = Ok DEFAULT_CONFIG
  ∧ getConfig Host.parsers with_empty_yaml project = getConfig Host.parsers bare project.
Proof.
  pose proof (LoadFacts.empty_yaml_is_no_configuration Host.parsers with_empty_yaml
                project "/srv/app/.clean-env.yaml" "" JUndefined
                ltac:(vm_compute; reflexivity)
                ltac:(left; vm_compute; reflexivity)
                ltac:(vm_compute; reflexivity)
                ltac:(vm_compute; reflexivity)
                ltac:(reflexivity)) as (_ & _ & Hconfig & Hsame).
  split; [exact Hconfig |].
  apply Hsame. intros filename _. eexists.
  split; [simpl; by rewrite lookup_empty | reflexivity].
Defined.

(** C8 at the manifest without the field. *)
Lemma manifest_field_or_defaults_plain :
  loadConfigFile Host.parsers (with_manifest plain_manifest_text) "/srv/app/package.json"
  = Ok JNull
  ∧ getConfig Host.parsers (with_manifest plain_manifest_text) project = Ok DEFAULT_CONFIG.
Proof.
  apply (proj1 (proj2
    (ManifestFacts.manifest_field_or_defaults Host.parsers
       (with_manifest plain_manifest_text) project "/srv/app/package.json"
       plain_manifest_text {[ "name" := JStr "app" ]}
       ltac:(vm_compute; reflexivity) ltac:(vm_compute; reflexivity)
       ltac:(vm_compute; reflexivity) ltac:(vm_compute; reflexivity)))).
  vm_compute. reflexivity.
Defined.

(** C9 at the default messages: [" y "] is not the affirmative ["y"]. *)
Lemma answer_is_compared_as_read_padded :
  ending (run (check DEFAULT_CONFIG (Some " y "))) = Exit 1.
Proof.
  apply (proj2 (proj2
    (CleanEnvFacts.answer_is_compared_as_read DEFAULT_FIELDS DEFAULT_TRANSLATIONS " y "
       ltac:(vm_compute; reflexivity))) "y").
  - vm_compute. reflexivity.
  - discriminate.
  - vm_compute. reflexivity.
Defined.

(** C10 at the project where the script's name is a directory and the
    YAML name cannot be inspected. *)
Lemma discovery_raises_stat_error_guarded :
  getFilenameForDirectory guarded project
  = Throw (Host.stat_error "EACCES" "/srv/app/.clean-env.yaml")
  ∧ getConfig Host.parsers guarded project
    = Throw (Host.stat_error "EACCES" "/srv/app/.clean-env.yaml").
Proof.
  apply (proj2
    (ConfigFacts.discovery_skips_non_files_and_raises_stat_errors Host.parsers guarded
       project [".clean-env.js"] [".clean-env.yml"; ".clean-env.json"; "package.json"]
       ".clean-env.yaml" ltac:(reflexivity)
       ltac:(intros earlier ->%list_elem_of_singleton; right; eexists;
             split; vm_compute; reflexivity))).
  - vm_compute. reflexivity.
  - discriminate.
Defined.

End Instances.

(** ** More on the loaders *)

Module LoaderProps.
Import ConfigFile.

Lemma strip_prefix_append (pre s : string) : strip_prefix pre (pre +:+ s) = Some s.
Proof.
  induction pre as [|c pre IH]; [reflexivity |].
  rewrite append_cons. simpl. by rewrite bool_decide_eq_true_2.
Qed.

Lemma strip_prefix_some (pre s rest : string) :
  strip_prefix pre s = Some rest → s = pre +:+ rest.
Proof.
  revert s. induction pre as [|c pre IH]; intros s.
  - simpl. intros [= ->]. reflexivity.
  - destruct s as [|c' s]; simpl; [done |].
    case_bool_decide; [| done]. subst c'. intros ->%IH. by rewrite append_cons.
Qed.

(** X1: [readFile] drops one byte order mark from the start of the text
    and nothing else; a text that does not start with the mark is returned
    as it is, and a failure to read is passed on unchanged. *)
Theorem readFile_strips_one_mark (w : World) (path : string) :
  (∀ rest, readFileSync w path = Ok (BOM +:+ rest) → readFile w path = Ok rest)
  ∧ (∀ text, readFileSync w path = Ok text → (∀ rest, text ≠ BOM +:+ rest) →
       readFile w path = Ok text)
  ∧ (∀ e, readFileSync w path = Throw e → readFile w path = Throw e).
Proof.
  unfold readFile. split; [| split].
  - intros rest ->.
    change (Ok (default (BOM +:+ rest) (strip_prefix BOM (BOM +:+ rest))) = Ok rest).
    by rewrite strip_prefix_append.
  - intros text -> Hno.
    change (Ok (default text (strip_prefix BOM text)) = Ok text).
    destruct (strip_prefix BOM text) as [rest|] eqn:E; [| done].
    apply strip_prefix_some in E. by destruct (Hno rest).
  - by intros e ->.
Qed.

Section Reports.
Context (lib : Parsers) (w : World).

Lemma loadJSONConfigFile_throw_inv path err :
  loadJSONConfigFile lib w path = Throw err →
  ∃ e, (readFile w path = Throw e
        ∨ ∃ text, readFile w path = Ok text
                  ∧ JSON_parse lib (stripComments lib text) = Throw e)
       ∧ err = {| message := cannot_read path e; code := code e;
                  messageTemplate := Some "failed-to-read-json";
                  messageData := Some (path, cannot_read path e) |}.
Proof.
  unfold loadJSONConfigFile.
  destruct (readFile w path) as [text|e] eqn:Hread; simpl.
  - destruct (JSON_parse lib (stripComments lib text)) as [v|e] eqn:Hparse; simpl; [done |].
    intros [= <-]. exists e. split; [right; by exists text | done].
  - intros [= <-]. exists e. split; [by left | done].
Qed.



Lemma loadPackageJSONConfigFile_throw_inv path err :
  loadPackageJSONConfigFile lib w path = Throw err →
  (∃ inner, loadJSONConfigFile lib w path = Throw inner
            ∧ err = set_message inner (cannot_read path inner))
  ∨ (∃ manifest, loadJSONConfigFile lib w path = Ok manifest
                 ∧ nullish manifest = true
                 ∧ err = plainError (cannot_read path (TypeError_read "clean-env"))).
Proof.
  unfold loadPackageJSONConfigFile.
  destruct (loadJSONConfigFile lib w path) as [manifest|inner]; simpl.
  - destruct manifest; simpl; try done; intros [= <-]; right; eauto.
  - intros [= <-]. left. eauto.
Qed.

End Reports.

(** X2: whatever [loadJSONConfigFile] throws comes from reading the file
    or from parsing its text without comments; it carries the message
    [Cannot read config file: <path>], a line break, [Error: <original
    message>], the code of the original error, the template
    [failed-to-read-json], and as data the path with that same message. *)
Theorem loadJSONConfigFile_error_report (lib : Parsers) (w : World) (path : string)
    (err : JSError) :
  loadJSONConfigFile lib w path = Throw err →
  ∃ e, (readFile w path = Throw e
        ∨ ∃ text, readFile w path = Ok text
                  ∧ JSON_parse lib (stripComments lib text) = Throw e)
       ∧ message err
         = "Cannot read config file: " +:+ path +:+ LF +:+ "Error: " +:+ message e
       ∧ code err = code e
       ∧ messageTemplate err = Some "failed-to-read-json"
       ∧ messageData err = Some (path, message err).
Proof.
  intros (e & Hcause & ->)%loadJSONConfigFile_throw_inv. exists e. by split.
Qed.

(** X3: what [loadPackageJSONConfigFile] throws is either the error of
    the JSON loader with its message wrapped a second time, where the data
    attached to it still hold the message wrapped once, or, for a manifest
    that is [null], the error of reading a property of [null] with the
    path in front of it. *)
Theorem loadPackageJSONConfigFile_error_report (lib : Parsers) (w : World)
    (path : string) (err : JSError) :
  loadPackageJSONConfigFile lib w path = Throw err →
  (∃ e, message err
        = "Cannot read config file: " +:+ path +:+ LF +:+ "Error: "
          +:+ "Cannot read config file: " +:+ path +:+ LF +:+ "Error: " +:+ message e
        ∧ messageData err
          = Some (path, "Cannot read config file: " +:+ path +:+ LF +:+ "Error: "
                        +:+ message e)
        ∧ messageTemplate err = Some "failed-to-read-json"
        ∧ code err = code e)
  ∨ (∃ manifest, loadJSONConfigFile lib w path = Ok manifest
                 ∧ nullish manifest = true
                 ∧ message err = cannot_read path (TypeError_read "clean-env")
                 ∧ messageTemplate err = None).
Proof.
  intros [(inner & Hinner & ->)|(manifest & Hload & Hnull & ->)]%loadPackageJSONConfigFile_throw_inv.
  - left. apply loadJSONConfigFile_throw_inv in Hinner as (e & _ & ->). by exists e.
  - right. by exists manifest.
Qed.

End LoaderProps.

(** ** More on the merged configuration *)

Module MergeProps.
Import ConfigFile.

Lemma deepmerge_over_plain (target source : JSValue) :
  Deepmerge.isMergeableObject target = false →
  Deepmerge.isMergeableObject source = true →
  Deepmerge.deepmerge target source = source.
Proof.
  intros Htarget Hsource.
  destruct source as [| | | | |items|fields]; try discriminate.
  - by destruct target.
  - assert (Deepmerge.deepmerge target (JObj fields)
            = JObj (map_imap (λ _ s, Some s) fields ∪ ∅)) as ->.
    { destruct target; try discriminate; simpl; f_equal; f_equal;
        apply map_imap_ext; intros key; destruct (fields !! key); simpl;
        by rewrite ?andb_false_r. }
    by rewrite map_imap_Some, (right_id ∅ _).
Qed.

Lemma deepmerge_over_empty_array (source : JSValue) :
  Deepmerge.deepmerge (JArr []) source = source.
Proof. by destruct source. Qed.

Lemma default_messages_are_plain :
  map_Forall (λ _ v, Deepmerge.isMergeableObject v = false) DEFAULT_TRANSLATIONS.
Proof.
  unfold DEFAULT_TRANSLATIONS.
  repeat (apply map_Forall_insert_2; [done |]). apply map_Forall_empty.
Qed.

Lemma default_fields_shape :
  map_Forall (λ key v, key = "translations" ∨ v = JArr []
                       ∨ Deepmerge.isMergeableObject v = false) DEFAULT_FIELDS.
Proof.
  unfold DEFAULT_FIELDS.
  repeat (apply map_Forall_insert_2; [by auto |]). apply map_Forall_empty.
Qed.

(** The value under a key of the source, merged over a target that is
    the empty array or cannot be merged, is the source's value. *)
Lemma merged_value_wins (target : option JSValue) (s : JSValue) :
  (∀ t, target = Some t → t = JArr [] ∨ Deepmerge.isMergeableObject t = false) →
  (if Deepmerge.isMergeableObject s && truthy (default JUndefined target)
   then Deepmerge.deepmerge (default JUndefined target) s
   else s) = s.
Proof.
  intros Htarget.
  destruct (Deepmerge.isMergeableObject s) eqn:Hs; simpl; [| done].
  destruct (truthy _); [| done].
  destruct target as [t|]; simpl.
  - destruct (Htarget t eq_refl) as [->|Hplain].
    + apply deepmerge_over_empty_array.
    + by apply deepmerge_over_plain.
  - by apply deepmerge_over_plain.
Qed.

Lemma getConfig_of_object (lib : Parsers) (w : World) (directory filePath : string)
    (config : JSValue) :
  getFilenameForDirectory w directory = Ok (Some filePath) →
  loadConfigFile lib w filePath = Ok config →
  nullish config = false →
  getConfig lib w directory = Ok (Deepmerge.deepmerge DEFAULT_CONFIG config).
Proof.
  intros Hselected Hload Hconfig. unfold getConfig. rewrite Hselected. simpl.
  rewrite Hload. simpl. rewrite Hconfig. simpl. unfold Deepmerge.merge.
  by rewrite Hconfig.
Qed.

(** X4: for a configuration file that holds an object, in any format,
    in which no object at any depth has the key [__proto__], [getConfig]
    returns an object in which every key the file leaves out has its
    default, every key of the file other than [translations] has the
    file's value whatever that is (so [dotenv: false] stays [false]), and
    [translations] is the file's value if that is no object, and
    otherwise the default messages with the file's entries put over
    them. *)
Theorem merged_fields (lib : Parsers) (w : World) (directory filePath : string)
    (user : gmap string JSValue) :
  getFilenameForDirectory w directory = Ok (Some filePath) →
  file_holds lib w filePath (JObj user) →
  proto_free (JObj user) = true →
  ∃ merged,
    getConfig lib w directory = Ok (JObj merged)
    ∧ (∀ key, user !! key = None → merged !! key = DEFAULT_FIELDS !! key)
    ∧ (∀ key v, key ≠ "translations" → user !! key = Some v → merged !! key = Some v)
    ∧ (∀ v, user !! "translations" = Some v → (∀ entries, v ≠ JObj entries) →
         merged !! "translations" = Some v)
    ∧ (∀ entries, user !! "translations" = Some (JObj entries) →
         ∃ messages,
           merged !! "translations" = Some (JObj messages)
           ∧ ∀ key, messages !! key
                    = match entries !! key with
                      | Some text => Some text
                      | None => DEFAULT_TRANSLATIONS !! key
                      end).
Proof.
  intros Hselected Hholds _.
  pose proof (LoadFacts.loadConfigFile_holds lib w filePath _ Hholds eq_refl) as Hload.
  rewrite (getConfig_of_object lib w directory filePath (JObj user)) by done.
  assert (∀ key, ∃ merged,
            Deepmerge.deepmerge DEFAULT_CONFIG (JObj user) = JObj merged
            ∧ merged !! key
              = match user !! key with
                | Some s =>
                    Some (if Deepmerge.isMergeableObject s
                             && truthy (default JUndefined (DEFAULT_FIELDS !! key))
                          then Deepmerge.deepmerge
                                 (default JUndefined (DEFAULT_FIELDS !! key)) s
                          else s)
                | None => DEFAULT_FIELDS !! key
                end) as Hlookup
    by (intros key; apply LoadFacts.deepmerge_lookup).
  destruct (Hlookup "") as (merged & Hmerged & _).
  assert (∀ key, merged !! key
                 = match user !! key with
                   | Some s =>
                       Some (if Deepmerge.isMergeableObject s
                                && truthy (default JUndefined (DEFAULT_FIELDS !! key))
                             then Deepmerge.deepmerge
                                    (default JUndefined (DEFAULT_FIELDS !! key)) s
                             else s)
                   | None => DEFAULT_FIELDS !! key
                   end) as Hkey.
  { intros key. destruct (Hlookup key) as (merged' & Hmerged' & Hkey).
    rewrite Hmerged in Hmerged'. by injection Hmerged' as ->. }
  exists merged. rewrite Hmerged. split; [done |]. split; [| split; [| split]].
  - intros key Hnone. by rewrite Hkey, Hnone.
  - intros key v Hne Huser. rewrite Hkey, Huser. f_equal.
    apply merged_value_wins. intros t Ht.
    destruct (default_fields_shape key t Ht) as [?|[?|?]]; [done | auto..].
  - intros v Huser Hobject. rewrite Hkey, Huser. f_equal.
    change (DEFAULT_FIELDS !! "translations") with (Some (JObj DEFAULT_TRANSLATIONS)).
    simpl. destruct v; try done. by destruct (Hobject fields).
  - intros entries Huser. rewrite Hkey, Huser.
    destruct (LoadFacts.deepmerge_lookup DEFAULT_TRANSLATIONS entries "")
      as (messages & Hmessages & _).
    exists messages. split.
    { change (Some (Deepmerge.deepmerge (JObj DEFAULT_TRANSLATIONS) (JObj entries))
              = Some (JObj messages)).
      by rewrite Hmessages. }
    intros key.
    destruct (LoadFacts.deepmerge_lookup DEFAULT_TRANSLATIONS entries key)
      as (messages' & Hmessages' & Hentry).
    rewrite Hmessages in Hmessages'. injection Hmessages' as <-.
    rewrite Hentry. destruct (entries !! key) as [text|]; [| done]. f_equal.
    apply merged_value_wins. intros t Ht. right.
    by apply (default_messages_are_plain key t).
Qed.

(** X5: a configuration file that holds an array, in any format, makes
    [getConfig] return that array, without any of the defaults. *)
Theorem array_configuration_replaces_defaults (lib : Parsers) (w : World)
    (directory filePath : string) (items : list JSValue) :
  getFilenameForDirectory w directory = Ok (Some filePath) →
  file_holds lib w filePath (JArr items) →
  getConfig lib w directory = Ok (JArr items).
Proof.
  intros Hselected Hholds.
  pose proof (LoadFacts.loadConfigFile_holds lib w filePath _ Hholds eq_refl) as Hload.
  by rewrite (getConfig_of_object lib w directory filePath (JArr items)).
Qed.

(** X6: a configuration file that holds [null], [undefined], a boolean, a
    number or the empty string, in any format, leaves [getConfig] with the
    default configuration. *)
Theorem scalar_configuration_gives_defaults (lib : Parsers) (w : World)
    (directory filePath : string) (v : JSValue) :
  getFilenameForDirectory w directory = Ok (Some filePath) →
  file_holds lib w filePath v →
  is_scalar v = true →
  getConfig lib w directory = Ok DEFAULT_CONFIG.
Proof.
  intros Hselected Hholds Hscalar.
  assert (∀ config, loadConfigFile lib w filePath = Ok config →
            is_scalar config = true ∨ config = JObj ∅ →
            getConfig lib w directory = Ok DEFAULT_CONFIG) as Hfinish.
  { intros config Hload Hconfig. unfold getConfig. rewrite Hselected. simpl.
    rewrite Hload. simpl.
    destruct Hconfig as [Hconfig| ->]; [| done].
    destruct config as [| |b|n|s|items|fields]; try done.
    simpl in Hconfig. apply bool_decide_eq_true in Hconfig as ->. done. }
  destruct Hholds as [Hext Himport|text Hext Hread Hparse|text Hext Hname Hread Hparse
                     |text manifest Hname Hread Hparse Hfield].
  - apply (Hfinish v); [| by left].
    rewrite LoadFacts.loadConfigFile_script by done.
    unfold loadJSConfigFile. by rewrite Himport.
  - apply (Hfinish (js_or v (JObj ∅))).
    + rewrite LoadFacts.loadConfigFile_yaml by done. unfold loadYAMLConfigFile.
      rewrite Hread. simpl. by rewrite Hparse.
    + unfold js_or. destruct (truthy v); auto.
  - apply (Hfinish v); [| by left].
    rewrite LoadFacts.loadConfigFile_json by done. unfold loadJSONConfigFile.
    rewrite Hread. simpl. by rewrite Hparse.
  - apply (Hfinish (js_or v JNull)).
    + rewrite LoadFacts.loadConfigFile_manifest by done.
      unfold loadPackageJSONConfigFile, loadJSONConfigFile.
      rewrite Hread. simpl. rewrite Hparse. simpl. by rewrite Hfield.
    + left. unfold js_or. by destruct (truthy v).
Qed.

End MergeProps.

(** ** More on [getConfig] as a whole *)

Module ResolveProps.
Import ConfigFile.

Lemma loadConfigFile_candidates (lib : Parsers) (w : World) (directory : string) :
  loadConfigFile lib w (Path.join directory ".clean-env.js")
  = loadJSConfigFile w (Path.join directory ".clean-env.js")
  ∧ loadConfigFile lib w (Path.join directory ".clean-env.yaml")
    = loadYAMLConfigFile lib w (Path.join directory ".clean-env.yaml")
  ∧ loadConfigFile lib w (Path.join directory ".clean-env.yml")
    = loadYAMLConfigFile lib w (Path.join directory ".clean-env.yml")
  ∧ loadConfigFile lib w (Path.join directory ".clean-env.json")
    = loadJSONConfigFile lib w (Path.join directory ".clean-env.json")
  ∧ loadConfigFile lib w (Path.join directory "package.json")
    = loadPackageJSONConfigFile lib w (Path.join directory "package.json").
Proof.
  repeat split.
  - apply LoadFacts.loadConfigFile_script. by rewrite PathFacts.extname_join.
  - apply LoadFacts.loadConfigFile_yaml. left. by rewrite PathFacts.extname_join.
  - apply LoadFacts.loadConfigFile_yaml. right. by rewrite PathFacts.extname_join.
  - apply LoadFacts.loadConfigFile_json.
    + by rewrite PathFacts.extname_join.
    + by rewrite PathFacts.basename_join.
  - apply LoadFacts.loadConfigFile_manifest. by rewrite PathFacts.basename_join.
Qed.

(** X7: the loader a selected file goes to depends on the candidate's
    name only, whatever the directory is called (a directory named
    [conf.js] or [package.json] changes nothing): the script goes to
    [importFresh], the two YAML names to the YAML loader,
    [.clean-env.json] to the JSON loader and [package.json] to the loader
    of the manifest; no candidate reaches the branch of unknown
    extensions. *)
Theorem candidate_dispatch (lib : Parsers) (w : World) (directory filePath : string) :
  getFilenameForDirectory w directory = Ok (Some filePath) →
  (filePath = Path.join directory ".clean-env.js"
   ∧ loadConfigFile lib w filePath = loadJSConfigFile w filePath)
  ∨ ((filePath = Path.join directory ".clean-env.yaml"
      ∨ filePath = Path.join directory ".clean-env.yml")
     ∧ loadConfigFile lib w filePath = loadYAMLConfigFile lib w filePath)
  ∨ (filePath = Path.join directory ".clean-env.json"
     ∧ loadConfigFile lib w filePath = loadJSONConfigFile lib w filePath)
  ∨ (filePath = Path.join directory "package.json"
     ∧ loadConfigFile lib w filePath = loadPackageJSONConfigFile lib w filePath).
Proof.
  intros (filename & Hin & -> & _)%ConfigFacts.getFilenameForDirectory_some.
  destruct (loadConfigFile_candidates lib w directory)
    as (Hjs & Hyaml & Hyml & Hjson & Hpkg).
  destruct (ConfigFacts.candidate_cases filename Hin) as [->|[->|[->|[->| ->]]]];
    auto 10.
Qed.


Lemma array_find_ext {A} (pred pred' : A → Result bool) (l : list A) :
  (∀ x, x ∈ l → pred x = pred' x) → array_find pred l = array_find pred' l.
Proof.
  induction l as [|y l IH]; intros Hext; [done |].
  simpl. rewrite <- (Hext y) by left.
  destruct (pred y) as [[|]|e]; simpl; [done | | done].
  apply IH. intros x Hx. apply Hext. by right.
Qed.




(** X9: [getConfig] looks at the machine through the five candidate paths
    only: two worlds that agree on [stat], on the contents and on the
    scripts at those paths give the same result, whatever else differs. *)
Theorem getConfig_reads_only_candidates (lib : Parsers) (w w' : World)
    (directory : string) :
  (∀ filename, filename ∈ CONFIG_FILES →
     statSync w (Path.join directory filename) = statSync w' (Path.join directory filename)
     ∧ readFileSync w (Path.join directory filename)
       = readFileSync w' (Path.join directory filename)
     ∧ importFresh w (Path.join directory filename)
       = importFresh w' (Path.join directory filename)) →
  getConfig lib w directory = getConfig lib w' directory.
Proof.
  intros Hagree.
  assert (getFilenameForDirectory w directory = getFilenameForDirectory w' directory)
    as Hsame.
  { unfold getFilenameForDirectory. f_equal. apply array_find_ext.
    intros path (filename & -> & Hin)%list_elem_of_fmap.
    unfold isExistingFile. by destruct (Hagree filename Hin) as (-> & _ & _). }
  unfold getConfig. rewrite <- Hsame.
  destruct (getFilenameForDirectory w directory) as [[filePath|]|e] eqn:Hselected;
    simpl; [| done..].
  destruct (ConfigFacts.getFilenameForDirectory_some w directory filePath Hselected)
    as (filename & Hin & -> & _).
  destruct (Hagree filename Hin) as (_ & Hread & Himport).
  assert (loadConfigFile lib w (Path.join directory filename)
          = loadConfigFile lib w' (Path.join directory filename)) as ->; [| done].
  unfold loadConfigFile, loadJSConfigFile, loadPackageJSONConfigFile,
    loadJSONConfigFile, loadYAMLConfigFile, readFile.
  by rewrite Hread, Himport.
Qed.

(** X18: what [getConfig] returns is never [null], [undefined] or any
    other scalar: it is an object that has at least the four fields of the
    default configuration, or, when the file holds an array, that array. *)
Theorem getConfig_shape (lib : Parsers) (w : World) (directory : string) (config : JSValue) :
  getConfig lib w directory = Ok config →
  (∃ fields, config = JObj fields ∧ dom DEFAULT_FIELDS ⊆ dom fields)
  ∨ (∃ items, config = JArr items).
Proof.
  unfold getConfig.
  destruct (getFilenameForDirectory w directory) as [[filePath|]|e]; simpl;
    [| intros [= <-]; left; by exists DEFAULT_FIELDS | done].
  destruct (loadConfigFile lib w filePath) as [loaded|e]; simpl; [| done].
  destruct loaded as [| |b|n|s|items|fields]; simpl;
    intros Hconfig; injection Hconfig as <-;
    try (left; eexists; split;
         [reflexivity
         | first [reflexivity | rewrite dom_union_L; apply union_subseteq_r]]).
  right. by exists items.
Qed.

End ResolveProps.

(** ** More on the script *)

Module ScriptProps.
Import CleanEnv.

(** X10: every key of a list is reported on one side or the other: a
    list of keys checked as required and as excluded against the same
    environment gives as many rows in total as it has keys. *)
Theorem every_key_is_missing_or_found (skips : string → bool) (keys : list JSValue)
    (env : gmap string string) :
  (length (missingRequired skips keys env) + length (foundExcluded skips keys env)
   = length keys)%nat.
Proof.
  unfold missingRequired, foundExcluded. rewrite !length_map.
  induction keys as [|key keys IH]; [done |].
  rewrite !filter_cons.
  destruct (env_nullish (process_env skips env key)); simpl; lia.
Qed.

(** X11: the two lists depend on the environment through the variables
    the configuration names only: environments that agree on those give
    the same rows. *)
Theorem other_variables_do_not_matter (skips : string → bool) (keys : list JSValue)
    (env env' : gmap string string) :
  (∀ key, key ∈ keys → env !! to_string key = env' !! to_string key) →
  missingRequired skips keys env = missingRequired skips keys env'
  ∧ foundExcluded skips keys env = foundExcluded skips keys env'.
Proof.
  intros Hagree. unfold missingRequired, foundExcluded.
  induction keys as [|key keys IH]; [done |].
  assert (process_env skips env key = process_env skips env' key) as Hkey
    by (unfold process_env; by rewrite (Hagree key) by left).
  destruct IH as [IHm IHf]; [intros k Hk; apply Hagree; by right |].
  rewrite !filter_cons, Hkey.
  destruct (env_nullish (process_env skips env' key)); simpl.
  - by rewrite IHm.
  - rewrite Hkey. by rewrite IHf.
Qed.

(** X12: what a run prints, for a configuration of the expected shape:
    nothing when both lists are empty; otherwise the section of the
    missing variables if there are any, then the section of the excluded
    variables found if there are any, then an empty line, the statement
    and the question, which is [errorQuestion] and one space. *)
Theorem transcript_of_the_script (lib : Parsers) (w : World) (rootDir : string)
    (stdin : option string)
    (env0 env : gmap string string) (fields translations : gmap string JSValue)
    (required excluded : list JSValue) :
  ConfigFile.getConfig lib w rootDir = Ok (JObj fields) →
  fields !! "required" = Some (JArr required) →
  fields !! "excluded" = Some (JArr excluded) →
  fields !! "translations" = Some (JObj translations) →
  (let dotenv := default JUndefined (fields !! "dotenv") in
   if truthy dotenv then dotenv_config w rootDir dotenv env0 else Ok env0) = Ok env →
  (missingRequired (env_skips w) required env = []
   ∧ foundExcluded (env_skips w) excluded env = [] →
     events (run (main lib w rootDir env0 stdin)) = [])
  ∧ (¬ (missingRequired (env_skips w) required env = []
        ∧ foundExcluded (env_skips w) excluded env = []) →
       events (run (main lib w rootDir env0 stdin))
       = table_section (default JUndefined (translations !! "missingRequired"))
           (missingRequired (env_skips w) required env)
         ++ table_section (default JUndefined (translations !! "foundExcluded"))
              (foundExcluded (env_skips w) excluded env)
         ++ [ConsoleLog None;
             ConsoleLog (Some (default JUndefined (translations !! "errorStatement")));
             Question (to_string (default JUndefined (translations !! "errorQuestion"))
                       +:+ " ")]).
Proof.
  intros Hconfig Hrequired Hexcluded Hmessages Henv.
  rewrite (CleanEnvFacts.run_of_script lib w rootDir stdin env0 env fields translations
             required excluded) by done.
  split.
  - by intros [-> ->].
  - intros Hsome.
    destruct (missingRequired (env_skips w) required env) as [|row rows];
      destruct (foundExcluded (env_skips w) excluded env) as [|row' rows'];
      [tauto | done..].
Qed.

Lemma missingRequired_nil (skips : string → bool) (names : list string)
    (env : gmap string string) :
  (∀ name, name ∈ names → own_name skips name) →
  missingRequired skips (JStr <$> names) env = []
  ↔ ∀ name, name ∈ names → is_Some (env !! name).
Proof.
  intros Hown. rewrite CleanEnvFacts.missingRequired_names by done. clear Hown.
  induction names as [|name names IH].
  - split; [| done]. intros _ name Hin. by apply elem_of_nil in Hin.
  - rewrite filter_cons. destruct (decide (env !! name = None)) as [Hnone|Hsome].
    + split; [done |]. intros Hall.
      destruct (Hall name) as [value Hvalue]; [left | congruence].
    + rewrite IH. split.
      * intros Hall n [->|Hin]%elem_of_cons; [| by apply Hall].
        by destruct (env !! name).
      * intros Hall n Hin. apply Hall. by right.
Qed.

Lemma foundExcluded_nil (skips : string → bool) (names : list string)
    (env : gmap string string) :
  (∀ name, name ∈ names → own_name skips name) →
  foundExcluded skips (JStr <$> names) env = []
  ↔ ∀ name, name ∈ names → env !! name = None.
Proof.
  intros Hown. rewrite CleanEnvFacts.foundExcluded_names by done. clear Hown.
  induction names as [|name names IH].
  - split; [| done]. intros _ name Hin. by apply elem_of_nil in Hin.
  - simpl. destruct (env !! name) as [value|] eqn:Hvalue; simpl.
    + split; [done |]. intros Hall. specialize (Hall name). rewrite Hvalue in Hall.
      discriminate Hall. left.
    + rewrite IH. split.
      * intros Hall n [->|Hin]%elem_of_cons; [done | by apply Hall].
      * intros Hall n Hin. apply Hall. by right.
Qed.

(** X13: for a configuration that lists names which [process.env]
    answers for from the variables alone (no member of [Object.prototype],
    no name it skips), the process ends with status 0 without printing or
    asking anything exactly when every required name has a value in the
    environment and no excluded name has one. *)
Theorem silent_exactly_when_clean (lib : Parsers) (w : World) (rootDir : string)
    (stdin : option string)
    (env0 env : gmap string string) (fields translations : gmap string JSValue)
    (required excluded : list string) :
  ConfigFile.getConfig lib w rootDir = Ok (JObj fields) →
  fields !! "required" = Some (JArr (JStr <$> required)) →
  fields !! "excluded" = Some (JArr (JStr <$> excluded)) →
  fields !! "translations" = Some (JObj translations) →
  (let dotenv := default JUndefined (fields !! "dotenv") in
   if truthy dotenv then dotenv_config w rootDir dotenv env0 else Ok env0) = Ok env →
  (∀ name, name ∈ required → own_name (env_skips w) name) →
  (∀ name, name ∈ excluded → own_name (env_skips w) name) →
  run (main lib w rootDir env0 stdin) = {| events := []; ending := Exit 0 |}
  ↔ (∀ name, name ∈ required → is_Some (env !! name))
    ∧ (∀ name, name ∈ excluded → env !! name = None).
Proof.
  intros Hconfig Hrequired Hexcluded Hmessages Henv Hown Hown'.
  rewrite (CleanEnvFacts.run_of_script lib w rootDir stdin env0 env fields translations
             (JStr <$> required) (JStr <$> excluded)) by done.
  rewrite <- (missingRequired_nil (env_skips w)), <- (foundExcluded_nil (env_skips w))
    by done.
  destruct (missingRequired (env_skips w) (JStr <$> required) env) as [|row rows];
    destruct (foundExcluded (env_skips w) (JStr <$> excluded) env) as [|row' rows'].
  - done.
  - split; [| by intros [_ ?]]. intros Hrun. apply (f_equal events) in Hrun. discriminate Hrun.
  - split; [| by intros [? _]]. intros Hrun. apply (f_equal events) in Hrun. discriminate Hrun.
  - split; [| by intros [? _]]. intros Hrun. apply (f_equal events) in Hrun. discriminate Hrun.
Qed.

(** X14: when [config.dotenv] is falsy, as with [dotenv: false], the
    dotenv file plays no part: the run is the same whatever loading it
    would have done. *)
Theorem falsy_dotenv_is_not_loaded (lib : Parsers) (w : World) (rootDir : string)
    (stdin : option string)
    (env0 : gmap string string) (fields : gmap string JSValue)
    (f : string → JSValue → gmap string string → Result (gmap string string)) :
  ConfigFile.getConfig lib w rootDir = Ok (JObj fields) →
  truthy (default JUndefined (fields !! "dotenv")) = false →
  run (main lib (with_dotenv_config w f) rootDir env0 stdin)
  = run (main lib w rootDir env0 stdin).
Proof.
  intros Hconfig Hfalsy. unfold run, main, mbind, Script_bind, eval.
  change (ConfigFile.getConfig lib (with_dotenv_config w f) rootDir)
    with (ConfigFile.getConfig lib w rootDir).
  rewrite Hconfig. simpl. by rewrite Hfalsy.
Qed.

(** X15: a configuration whose [required] or [excluded] is not an array
    (a single name given as a string, say, or a configuration that is
    itself an array) ends the process with an exception nothing catches,
    before anything is printed or asked. *)
Theorem lists_must_be_arrays (lib : Parsers) (w : World) (rootDir : string)
    (stdin : option string)
    (env0 : gmap string string) (config : JSValue) :
  ConfigFile.getConfig lib w rootDir = Ok config →
  (∀ items, get_prop config "required" ≠ Ok (JArr items))
  ∨ (∀ items, get_prop config "excluded" ≠ Ok (JArr items)) →
  ∃ err, run (main lib w rootDir env0 stdin) = {| events := []; ending := Uncaught err |}.
Proof.
  intros Hconfig Hlists. unfold run, main, mbind, Script_bind, eval.
  rewrite Hconfig. cbv beta iota.
  destruct (get_prop config "dotenv") as [dotenv|e]; [| eauto].
  assert (∀ env : gmap string string, ∃ err,
    (let (evs, r) :=
       match get_prop config "required" with
       | Ok required =>
           match filter_receiver required with
           | Ok requiredKeys =>
               match get_prop config "excluded" with
               | Ok excluded =>
                   match filter_receiver excluded with
                   | Ok excludedKeys =>
                       let (evs', r) :=
                         report config "missingRequired"
                           (missingRequired (env_skips w) requiredKeys env) true [] in
                       match r with
                       | Ok safe =>
                           let (evs'', r') :=
                             report config "foundExcluded"
                               (foundExcluded (env_skips w) excludedKeys env) safe evs' in
                           match r' with
                           | Ok safe' =>
                               (if negb safe' then check config stdin else mret 0%Z) evs''
                           | Throw e => (evs'', Throw e)
                           end
                       | Throw e => (evs', Throw e)
                       end
                   | Throw e => ([], Throw e)
                   end
               | Throw e => ([], Throw e)
               end
           | Throw e => ([], Throw e)
           end
       | Throw e => ([], Throw e)
       end in
     match r with
     | Ok status => {| events := evs; ending := Exit status |}
     | Throw e => {| events := evs; ending := Uncaught e |}
     end) = {| events := []; ending := Uncaught err |}) as Hrest.
  { intros env.
    destruct (get_prop config "required") as [required|e] eqn:Hr; [| eauto].
    destruct required as [| | | | |requiredKeys|]; simpl; eauto;
      try (destruct Hlists as [Hl|Hl]; [by destruct (Hl requiredKeys) |]).
    destruct (get_prop config "excluded") as [excluded|e] eqn:He; [| eauto].
    destruct excluded as [| | | | |excludedKeys|]; simpl; eauto;
      try (destruct Hlists as [Hl|Hl]; [by destruct (Hl requiredKeys) |]).
    all: try by destruct (Hl excludedKeys).
    all: destruct Hlists as [Hl|Hl];
      [by destruct (Hl requiredKeys) | by destruct (Hl excludedKeys)]. }
  destruct (truthy dotenv).
  - destruct (dotenv_config w rootDir dotenv env0) as [env|e]; [apply Hrest | eauto].
  - apply Hrest.
Qed.

(** X16: when reading or parsing the selected file fails, the process
    ends with the exception of the loader, whose message names the file
    and the failure, and nothing has been printed or asked. *)
Theorem unreadable_configuration_aborts (lib : Parsers) (w : World)
    (rootDir filePath : string) (stdin : option string)
    (env0 : gmap string string) (e : JSError) :
  ConfigFile.getFilenameForDirectory w rootDir = Ok (Some filePath) →
  ConfigFile.read_or_parse_fails lib w filePath e →
  ∃ err, run (main lib w rootDir env0 stdin) = {| events := []; ending := Uncaught err |}
         ∧ contains (message err) filePath
         ∧ contains (message err) (message e).
Proof.
  intros Hselected Hfail.
  destruct (ConfigFacts.getFilenameForDirectory_some w rootDir filePath Hselected)
    as (filename & Hin & -> & _).
  destruct (LoadFacts.loadConfigFile_throw lib w rootDir filename e Hin Hfail)
    as (err & Hload & Hpath & Hmsg).
  exists err. split; [| done].
  unfold run, main, mbind, Script_bind, eval, ConfigFile.getConfig.
  rewrite Hselected. simpl. by rewrite Hload.
Qed.

(** X17: when [translations] in the configuration is something other
    than an object ([translations: "none"], say), every message is
    [undefined]: the question asked is ["undefined "], no answer equals
    the affirmative, and the process that has something to report ends
    with status 1 whatever is answered. *)
Theorem plain_translations_refuse_every_answer (lib : Parsers) (w : World)
    (rootDir answer : string) (env0 env : gmap string string)
    (fields : gmap string JSValue) (messages : JSValue)
    (required excluded : list JSValue) :
  ConfigFile.getConfig lib w rootDir = Ok (JObj fields) →
  fields !! "required" = Some (JArr required) →
  fields !! "excluded" = Some (JArr excluded) →
  fields !! "translations" = Some messages →
  nullish messages = false →
  (∀ entries, messages ≠ JObj entries) →
  (let dotenv := default JUndefined (fields !! "dotenv") in
   if truthy dotenv then dotenv_config w rootDir dotenv env0 else Ok env0) = Ok env →
  ¬ (missingRequired (env_skips w) required env = []
     ∧ foundExcluded (env_skips w) excluded env = []) →
  ending (run (main lib w rootDir env0 (Some answer))) = Exit 1
  ∧ Question "undefined " ∈ events (run (main lib w rootDir env0 (Some answer))).
Proof.
  intros Hconfig Hrequired Hexcluded Hmessages Hnull Hplain Henv Hsome.
  unfold run.
  rewrite (CleanEnvFacts.main_after_lists lib w rootDir (Some answer) env0 env fields
             required excluded) by done.
  assert (∀ key, get_prop messages key = Ok JUndefined) as Hmsg.
  { intros key. destruct messages; try done. by destruct (Hplain fields0). }
  unfold mbind, Script_bind, report, check, translation, emit, eval, mbind, Script_bind.
  destruct (missingRequired (env_skips w) required env) as [|row rows];
    destruct (foundExcluded (env_skips w) excluded env) as [|row' rows']; [tauto | ..];
    simpl; rewrite Hmessages; simpl; rewrite !Hmsg; simpl;
    (split; [done |]); set_solver.
Qed.

(** X19: when the input ends without a line, a process that has
    something to report asks its question and then ends with status 0,
    whatever the affirmative string is. *)
Theorem closed_input_passes (lib : Parsers) (w : World) (rootDir : string)
    (env0 env : gmap string string) (fields translations : gmap string JSValue)
    (required excluded : list JSValue) :
  ConfigFile.getConfig lib w rootDir = Ok (JObj fields) →
  fields !! "required" = Some (JArr required) →
  fields !! "excluded" = Some (JArr excluded) →
  fields !! "translations" = Some (JObj translations) →
  (let dotenv := default JUndefined (fields !! "dotenv") in
   if truthy dotenv then dotenv_config w rootDir dotenv env0 else Ok env0) = Ok env →
  ¬ (missingRequired (env_skips w) required env = []
     ∧ foundExcluded (env_skips w) excluded env = []) →
  ending (run (main lib w rootDir env0 None)) = Exit 0
  ∧ Question (to_string (default JUndefined (translations !! "errorQuestion")) +:+ " ")
      ∈ events (run (main lib w rootDir env0 None)).
Proof.
  intros Hconfig Hrequired Hexcluded Hmessages Henv Hsome.
  rewrite (CleanEnvFacts.run_of_script lib w rootDir None env0 env fields translations
             required excluded) by done.
  destruct (missingRequired (env_skips w) required env) as [|row rows];
    destruct (foundExcluded (env_skips w) excluded env) as [|row' rows'];
    [tauto | ..]; cbn [events ending];
    (split; [done |]; apply elem_of_app; right; apply elem_of_app; right;
     rewrite !elem_of_cons; auto).
Qed.


End ScriptProps.

(** ** The further properties at example projects *)

Module MoreInstances.
Import ConfigFile CleanEnv Examples MoreExamples.

(** X2 at the JSON file that breaks off. *)
Lemma loadJSONConfigFile_error_report_broken :
  ∃ err, loadJSONConfigFile Host.parsers (with_json broken_json_text)
           "/srv/app/.clean-env.json" = Throw err
         ∧ messageTemplate err = Some "failed-to-read-json"
         ∧ messageData err = Some ("/srv/app/.clean-env.json", message err).
Proof.
  eexists. split; [vm_compute; reflexivity |].
  destruct (LoaderProps.loadJSONConfigFile_error_report Host.parsers
              (with_json broken_json_text) "/srv/app/.clean-env.json" _
              ltac:(vm_compute; reflexivity)) as (e & _ & _ & _ & Htemplate & Hdata).
  split; [exact Htemplate | exact Hdata].
Defined.

(** X3 at the manifest that is [null]. *)
Lemma loadPackageJSONConfigFile_error_report_null :
  ∃ err, loadPackageJSONConfigFile Host.parsers (with_manifest "null")
           "/srv/app/package.json" = Throw err
         ∧ message err
           = cannot_read "/srv/app/package.json" (TypeError_read "clean-env").
Proof.
  eexists. split; [vm_compute; reflexivity |].
  destruct (LoaderProps.loadPackageJSONConfigFile_error_report Host.parsers
              (with_manifest "null") "/srv/app/package.json" _
              ltac:(vm_compute; reflexivity))
    as [(e & _ & _ & Htemplate & _)|(manifest & _ & _ & Hmessage & _)].
  - discriminate Htemplate.
  - exact Hmessage.
Defined.

(** X4 at the JSON file with [dotenv: false] and one excluded name. *)
Lemma merged_fields_no_dotenv :
  ∃ merged, getConfig Host.parsers (with_json no_dotenv_text) project = Ok (JObj merged)
            ∧ merged !! "dotenv" = Some (JBool false)
            ∧ merged !! "required" = Some (JArr []).
Proof.
  assert (file_holds Host.parsers (with_json no_dotenv_text) "/srv/app/.clean-env.json"
            (JObj (<["dotenv" := JBool false]> {[ "excluded" := JArr [JStr "DEBUG"] ]})))
    as Hholds.
  { apply (json_holds _ _ _ _ no_dotenv_text);
      [vm_compute; reflexivity | vm_compute; discriminate
      | vm_compute; reflexivity | vm_compute; reflexivity]. }
  assert (getFilenameForDirectory (with_json no_dotenv_text) project
          = Ok (Some "/srv/app/.clean-env.json")) as Hselected
    by (vm_compute; reflexivity).
  destruct (MergeProps.merged_fields Host.parsers (with_json no_dotenv_text) project
              "/srv/app/.clean-env.json" _ Hselected Hholds
              ltac:(vm_compute; reflexivity))
    as (merged & Hconfig & Hgaps & Hwins & _).
  exists merged. split; [exact Hconfig |]. split.
  - apply Hwins; [discriminate | vm_compute; reflexivity].
  - rewrite Hgaps; vm_compute; reflexivity.
Defined.

(** X5 at the JSON file that is a list. *)
Lemma array_configuration_replaces_defaults_list :
  getConfig Host.parsers (with_json "[1, 2]") project = Ok (JArr [JNum 1; JNum 2]).
Proof.
  apply (MergeProps.array_configuration_replaces_defaults Host.parsers
           (with_json "[1, 2]") project "/srv/app/.clean-env.json").
  - vm_compute. reflexivity.
  - apply (json_holds _ _ _ _ "[1, 2]");
      [vm_compute; reflexivity | vm_compute; discriminate
      | vm_compute; reflexivity | vm_compute; reflexivity].
Defined.

(** X6 at the script that exports [null]. *)
Lemma scalar_configuration_gives_defaults_null :
  getConfig Host.parsers (with_script (Ok JNull)) project = Ok DEFAULT_CONFIG.
Proof.
  apply (MergeProps.scalar_configuration_gives_defaults Host.parsers
           (with_script (Ok JNull)) project "/srv/app/.clean-env.js" JNull).
  - vm_compute. reflexivity.
  - apply script_holds; vm_compute; reflexivity.
  - reflexivity.
Defined.

(** X7 at the project with a manifest only. *)
Lemma candidate_dispatch_manifest :
  loadConfigFile Host.parsers (with_manifest manifest_text) "/srv/app/package.json"
  = loadPackageJSONConfigFile Host.parsers (with_manifest manifest_text)
      "/srv/app/package.json".
Proof.
  destruct (ResolveProps.candidate_dispatch Host.parsers (with_manifest manifest_text)
              project "/srv/app/package.json" ltac:(vm_compute; reflexivity))
    as [[Hpath _]|[[[Hpath|Hpath] _]|[[Hpath _]|[_ Hload]]]];
    [vm_compute in Hpath; discriminate Hpath.. | exact Hload].
Defined.


(** X9 at the project with a README and the project without any file. *)
Lemma getConfig_reads_only_candidates_readme :
  getConfig Host.parsers with_readme project = getConfig Host.parsers bare project.
Proof.
  apply (ResolveProps.getConfig_reads_only_candidates Host.parsers with_readme bare
           project).
  intros filename Hin.
  destruct (ConfigFacts.candidate_cases filename Hin) as [->|[->|[->|[->| ->]]]];
    vm_compute; repeat split.
Defined.

(** X11 at an environment with one variable more. *)
Lemma other_variables_do_not_matter_example :
  missingRequired Host.is_array_index [JStr "A"] {[ "A" := "1" ]}
  = missingRequired Host.is_array_index [JStr "A"] (<["B" := "2"]> {[ "A" := "1" ]})
  ∧ foundExcluded Host.is_array_index [JStr "A"] {[ "A" := "1" ]}
    = foundExcluded Host.is_array_index [JStr "A"] (<["B" := "2"]> {[ "A" := "1" ]}).
Proof.
  apply (ScriptProps.other_variables_do_not_matter Host.is_array_index [JStr "A"]
           {[ "A" := "1" ]} (<["B" := "2"]> {[ "A" := "1" ]})).
  intros key ->%list_elem_of_singleton. vm_compute. reflexivity.
Defined.

(** X12 at the project that requires [API_KEY], with an empty
    environment. *)
Lemma transcript_of_the_script_missing_key :
  events (run (main Host.parsers (with_manifest manifest_text) project ∅ (Some "n")))
  = [ConsoleLog None;
     ConsoleLog (Some (JStr "Clean ENV did not find the following required ENV variables."));
     ConsoleTable [NameRow (JStr "API_KEY")];
     ConsoleLog None;
     ConsoleLog (Some (JStr "Your ENV is not in a clean state."));
     Question "Are you sure you want to continue with the build? (y) "].
Proof.
  refine (proj2
    (ScriptProps.transcript_of_the_script Host.parsers (with_manifest manifest_text)
       project (Some "n") ∅ ∅ (<["required" := JArr [JStr "API_KEY"]]> DEFAULT_FIELDS)
       DEFAULT_TRANSLATIONS [JStr "API_KEY"] [] _ _ _ _ _) _).
  1-5: vm_compute; reflexivity.
  intros [Hmissing _]. vm_compute in Hmissing. discriminate Hmissing.
Defined.

(** X13 at the same project with [API_KEY] set. *)
Lemma silent_exactly_when_clean_example :
  run (main Host.parsers (with_manifest manifest_text) project {[ "API_KEY" := "k" ]}
         (Some "n"))
  = {| events := []; ending := Exit 0 |}.
Proof.
  refine (proj2
    (ScriptProps.silent_exactly_when_clean Host.parsers (with_manifest manifest_text)
       project (Some "n") {[ "API_KEY" := "k" ]} {[ "API_KEY" := "k" ]}
       (<["required" := JArr [JStr "API_KEY"]]> DEFAULT_FIELDS)
       DEFAULT_TRANSLATIONS ["API_KEY"] [] _ _ _ _ _ _ _) _).
  1-5: vm_compute; reflexivity.
  - intros name ->%list_elem_of_singleton.
    split; [vm_compute; reflexivity | apply (bool_decide_unpack _); vm_compute; exact I].
  - intros name Hin. by apply elem_of_nil in Hin.
  - split.
    + intros name ->%list_elem_of_singleton. by exists "k".
    + intros name Hin. by apply elem_of_nil in Hin.
Defined.

(** X14 at the JSON file with [dotenv: false]: a dotenv file that defines
    [DEBUG] changes nothing. *)
Lemma falsy_dotenv_is_not_loaded_example :
  run (main Host.parsers (with_dotenv_config (with_json no_dotenv_text) eager_dotenv)
         project ∅ (Some "y"))
  = run (main Host.parsers (with_json no_dotenv_text) project ∅ (Some "y")).
Proof.
  apply (ScriptProps.falsy_dotenv_is_not_loaded Host.parsers (with_json no_dotenv_text)
           project (Some "y") ∅
           (<["dotenv" := JBool false]>
              (<["excluded" := JArr [JStr "DEBUG"]]> DEFAULT_FIELDS))
           eager_dotenv).
  - vm_compute. reflexivity.
  - vm_compute. reflexivity.
Defined.

(** X15 at the JSON file with [required] given as one string. *)
Lemma lists_must_be_arrays_string :
  ∃ err, run (main Host.parsers (with_json string_required_text) project ∅ (Some "y"))
         = {| events := []; ending := Uncaught err |}.
Proof.
  apply (ScriptProps.lists_must_be_arrays Host.parsers (with_json string_required_text)
           project (Some "y") ∅ (JObj (<["required" := JStr "API_KEY"]> DEFAULT_FIELDS))).
  - vm_compute. reflexivity.
  - left. intros items Hitems. vm_compute in Hitems. discriminate Hitems.
Defined.

(** X16 at the project whose JSON file breaks off. *)
Lemma unreadable_configuration_aborts_broken :
  ∃ err, run (main Host.parsers broken project ∅ (Some "y"))
         = {| events := []; ending := Uncaught err |}
         ∧ contains (message err) "/srv/app/.clean-env.json"
         ∧ contains (message err) (message Host.SyntaxError).
Proof.
  apply (ScriptProps.unreadable_configuration_aborts Host.parsers broken project
           "/srv/app/.clean-env.json" (Some "y") ∅ Host.SyntaxError).
  - vm_compute. reflexivity.
  - apply (json_fails _ _ _ _ broken_json_text); vm_compute; reflexivity.
Defined.

(** X17 at the JSON file with [translations: "none"]. *)
Lemma plain_translations_refuse_every_answer_example :
  ending (run (main Host.parsers (with_json string_translations_text) project ∅
                 (Some "y")))
  = Exit 1.
Proof.
  refine (proj1
    (ScriptProps.plain_translations_refuse_every_answer Host.parsers
       (with_json string_translations_text) project "y" ∅ ∅
       (<["translations" := JStr "none"]>
          (<["required" := JArr [JStr "API_KEY"]]> DEFAULT_FIELDS))
       (JStr "none") [JStr "API_KEY"] [] _ _ _ _ _ _ _ _)).
  1-4: vm_compute; reflexivity.
  - reflexivity.
  - discriminate.
  - vm_compute. reflexivity.
  - intros [Hmissing _]. vm_compute in Hmissing. discriminate Hmissing.
Defined.

(** X18 at the JSON file with [dotenv: false]. *)
Lemma getConfig_shape_no_dotenv :
  (∃ fields,
     JObj (<["dotenv" := JBool false]>
             (<["excluded" := JArr [JStr "DEBUG"]]> DEFAULT_FIELDS)) = JObj fields
     ∧ dom DEFAULT_FIELDS ⊆ dom fields)
  ∨ (∃ items,
       JObj (<["dotenv" := JBool false]>
               (<["excluded" := JArr [JStr "DEBUG"]]> DEFAULT_FIELDS)) = JArr items).
Proof.
  apply (ResolveProps.getConfig_shape Host.parsers (with_json no_dotenv_text) project).
  vm_compute. reflexivity.
Defined.

(** X19 at the project that requires [API_KEY], with an empty environment
    and no input. *)
Lemma closed_input_passes_example :
  ending (run (main Host.parsers (with_manifest manifest_text) project ∅ None)) = Exit 0.
Proof.
  refine (proj1
    (ScriptProps.closed_input_passes Host.parsers (with_manifest manifest_text)
       project ∅ ∅ (<["required" := JArr [JStr "API_KEY"]]> DEFAULT_FIELDS)
       DEFAULT_TRANSLATIONS [JStr "API_KEY"] [] _ _ _ _ _ _)).
  1-5: vm_compute; reflexivity.
  intros [Hmissing _]. vm_compute in Hmissing. discriminate Hmissing.
Defined.


End MoreInstances.
